(** * rexray: the Docker volume-driver module (daemon/module/docker/volumedriver)

    A shallow embedding of [voldriver.go] and the properties of its name
    sanitizer, address handling, start sequence and verb dispatcher. *)

From Stdlib Require Import NArith ZArith Ascii String List Bool Lia.
From stdpp Require Import base option list gmap.

Open Scope N_scope.

(** ** Go strings

    A Go string is read by [strings.ToLower], by [regexp] and by [range] as a
    sequence of runes (Unicode code points; a byte that is not part of a
    well-formed UTF-8 sequence reads as U+FFFD).  The embedding keeps that
    sequence. *)

Abbreviation rune := N (only parsing).
Abbreviation gostring := (list N) (only parsing).

(** A literal of the source, written with Rocq's string syntax. *)
Definition str (s : string) : gostring :=
  List.map N_of_ascii (list_ascii_of_string s).

(** The double quote, which a Rocq string literal cannot hold undoubled. *)
Definition dquote : rune := 34.

Module GoStrings.

Definition isUpperASCII (r : rune) : bool := (65 <=? r) && (r <=? 90).
Definition isLowerASCII (r : rune) : bool := (97 <=? r) && (r <=? 122).
Definition isDigit (r : rune) : bool := (48 <=? r) && (r <=? 57).

(** [unicode.ToLower]: the ASCII range is handled inline, everything above
    goes through the case tables ([To(LowerCase, r)]), a parameter here. *)
Definition unicode_ToLower (To_LowerCase : rune -> rune) (r : rune) : rune :=
  if r <=? 127 then (if isUpperASCII r then r + 32 else r)
  else To_LowerCase r.

(** [strings.ToLower s]: every rune mapped through [unicode.ToLower]. *)
Definition ToLower (To_LowerCase : rune -> rune) (s : gostring) : gostring :=
  List.map (unicode_ToLower To_LowerCase) s.

(** [strings.TrimLeft s " "] *)
Fixpoint TrimLeftSpace (s : gostring) : gostring :=
  match s with
  | r :: t => if r =? 32 then TrimLeftSpace t else s
  | [] => []
  end.

(** [strings.Trim s " "]: the cut set holds the space U+0020 only. *)
Definition TrimSpace (s : gostring) : gostring :=
  rev (TrimLeftSpace (rev (TrimLeftSpace s))).

(** ASCII case folding, as the [(?i)] flag of [regexp] applies it to the
    letters of "unix" and "tcp" (none of them has a non-ASCII fold). *)
Definition foldASCII (r : rune) : rune :=
  if isUpperASCII r then r + 32 else r.

End GoStrings.
Import GoStrings.

(** ** The name sanitizer: [cleanName] and its three patterns *)

Module Sanitizer.

(** separators = [[ &_=+:]] *)
Definition isSeparator (r : rune) : bool :=
  (r =? 32) || (r =? 38) || (r =? 95) || (r =? 61) || (r =? 43) || (r =? 58).

(** the class negated in illegalPath = [[^[:alnum:]\~\-\./]];
    [[:alnum:]] is the ASCII class 0-9A-Za-z. *)
Definition isLegalPath (r : rune) : bool :=
  isDigit r || isUpperASCII r || isLowerASCII r
  || (r =? 126) || (r =? 45) || (r =? 46) || (r =? 47).

Definition dash : rune := 45.

(** [separators.ReplaceAllString(s, "-")]: every match is one rune. *)
Definition separators_ReplaceAll (s : gostring) : gostring :=
  List.map (fun r => if isSeparator r then dash else r) s.

(** [illegalPath.ReplaceAllString(s, "")]: every match is one rune. *)
Definition illegalPath_ReplaceAll (s : gostring) : gostring :=
  List.filter isLegalPath s.

(** [dashes.ReplaceAllString(s, "-")] with dashes = [[\-]+]: a maximal run
    of dashes becomes one dash, that is, a dash followed by a dash goes. *)
Fixpoint dashes_ReplaceAll (s : gostring) : gostring :=
  match s with
  | [] => []
  | r :: t =>
      match t with
      | r' :: _ =>
          if (r =? dash) && (r' =? dash) then dashes_ReplaceAll t
          else r :: dashes_ReplaceAll t
      | [] => [r]
      end
  end.

Section WithCaseTable.
Variable To_LowerCase : rune -> rune.

Definition cleanName (s : gostring) : gostring :=
  let s := TrimSpace (ToLower To_LowerCase s) in
  let s := separators_ReplaceAll s in
  let s := illegalPath_ReplaceAll s in
  let s := dashes_ReplaceAll s in
  s.
End WithCaseTable.

(** The two runes above U+007F that the Unicode tables lower into ASCII
    (U+0130 and the Kelvin sign U+212A); a stand-in for the tables where a
    concrete run needs one. *)
Definition sampleCaseTable (r : rune) : rune :=
  if r =? 304 then 105 else if r =? 8490 then 107 else r.

End Sanitizer.
Import Sanitizer.

(** ** [regexp]: the fragment [validProtoPatt] needs

    Patterns are kept as syntax trees.  In RE2 syntax alternation binds
    loosest, so ["(?i)^unix|tcp$"] parses as the alternation of [^unix] and
    [tcp$]; the flag [(?i)] makes every literal match up to case. *)

Module Regexp.

Inductive re : Type :=
| Eps                      (* the empty pattern *)
| BeginText                (* ^ *)
| EndText                  (* $ *)
| Lit (r : rune)           (* a lower-case ASCII letter under (?i) *)
| Cat (a b : re)
| Alt (a b : re).

(** A run of literals, as in [unix]. *)
Fixpoint lits (s : gostring) : re :=
  match s with
  | [] => Eps
  | r :: t => Cat (Lit r) (lits t)
  end.

(** All the ways [e] matches a prefix of [s]; [atStart] tells whether the
    position is the beginning of the text.  Each result is the position
    after the match. *)
Fixpoint matchAt (e : re) (atStart : bool) (s : gostring)
  : list (bool * gostring) :=
  match e with
  | Eps => [(atStart, s)]
  | BeginText => if atStart then [(atStart, s)] else []
  | EndText => match s with [] => [(atStart, s)] | _ :: _ => [] end
  | Lit c =>
      match s with
      | r :: t => if foldASCII r =? c then [(false, t)] else []
      | [] => []
      end
  | Cat a b =>
      flat_map (fun p => matchAt b (fst p) (snd p)) (matchAt a atStart s)
  | Alt a b => matchAt a atStart s ++ matchAt b atStart s
  end.

Definition matchesHere (e : re) (atStart : bool) (s : gostring) : bool :=
  match matchAt e atStart s with [] => false | _ :: _ => true end.

Fixpoint searchFrom (e : re) (atStart : bool) (s : gostring) : bool :=
  matchesHere e atStart s
  || match s with
     | _ :: t => searchFrom e false t
     | [] => false
     end.

(** [regexp.MatchString(pattern, s)]: is there a match anywhere in [s].
    Its error result reports a pattern that does not compile, which a
    constant, valid pattern never does. *)
Definition MatchString (e : re) (s : gostring) : bool := searchFrom e true s.

End Regexp.
Import Regexp.

(** const validProtoPatt = "(?i)^unix|tcp$" *)
Definition validProtoPatt : re :=
  Alt (Cat BeginText (lits (str "unix")))
      (Cat (lits (str "tcp")) EndText).

(** ** Errors

    An [error] of this package is either a value handed over by a callee
    outside it or one built with [goof]: a message, fields (a string value is
    kept, any other value is not) and, for the [E] variants, an inner error. *)

Inductive error : Type :=
| ExternalError (msg : gostring)
| GoofError (msg : gostring) (fields : list (gostring * option gostring))
| GoofErrorE (msg : gostring) (fields : list (gostring * option gostring))
             (inner : error).

(** [err.Error()] *)
Definition Error (e : error) : gostring :=
  match e with
  | ExternalError msg => msg
  | GoofError msg _ => msg
  | GoofErrorE msg _ _ => msg
  end.

Definition goof_WithField (key val msg : gostring) : error :=
  GoofError msg [(key, Some val)].

Definition goof_WithFieldsE (keys : list gostring) (msg : gostring)
           (inner : error) : error :=
  GoofErrorE msg (List.map (fun k => (k, None)) keys) inner.

(** ** The world [Start] acts on

    The file system is a finite map from the paths the program names to what
    sits there; the trace lists, in order, the calls that leave the package
    with an effect. *)

Inductive Node : Type :=
| File (data : gostring) (perm : N)
| Dir (perm : N).

(** What the goroutine launched by [Start] runs: [net.Listen("unix", _)]
    followed by [http.Serve], or an [http.Server] with its limits. *)
Inductive Server : Type :=
| UnixServer (sockFile : gostring)
| TCPServer (Addr : gostring) (ReadTimeoutSec WriteTimeoutSec : N)
            (MaxHeaderBytes : N).

Inductive Event : Type :=
| EvMkdirAll (path : gostring) (perm : N)
| EvRemoveAll (path : gostring)
| EvInitDrivers
| EvGo (s : Server)
| EvWriteFile (path : gostring) (data : gostring) (perm : N).

Record World : Type := mkWorld {
  fs : gmap (list N) Node;
  trace : list Event
}.

Definition emit (e : Event) (w : World) : World :=
  {| fs := fs w; trace := trace w ++ [e] |}.

Definition perm0755 : N := 493.
Definition perm0644 : N := 420.

(** The operating system as the program sees it.  Which calls fail is the
    environment's choice; how paths resolve is too ([path_under p q]: [q] is
    [p] or lies below it).  For a write that fails, [write_partial] tells
    how far it got: [None] when the file could not be opened, [Some n] when
    it was opened, created or truncated, and [n] runes went in. *)
Record OS : Type := mkOS {
  filepath_Dir : gostring -> gostring;
  path_under : gostring -> gostring -> bool;
  mkdir_fails : gmap (list N) Node -> gostring -> option error;
  remove_fails : gmap (list N) Node -> gostring -> option error;
  write_fails : gmap (list N) Node -> gostring -> option error;
  write_partial : gmap (list N) Node -> gostring -> option nat
}.

(** A computation of [Start]: it runs on a world and either returns early
    with an error ([inl]) or goes on with a value. *)
Definition Go (A : Type) : Type := World -> (error + A) * World.

Definition ret {A} (a : A) : Go A := fun w => (inr a, w).
Definition fail {A} (e : error) : Go A := fun w => (inl e, w).
Definition bind {A B} (m : Go A) (k : A -> Go B) : Go B :=
  fun w => match m w with
           | (inl e, w') => (inl e, w')
           | (inr a, w') => k a w'
           end.

Notation "'do' x <- m ; k" := (bind m (fun x => k))
  (at level 10, x pattern, m at level 100, k at level 200,
   format "'[v' 'do'  x  <-  m ; '/' k ']'").

(** [if err != nil { return err }] *)
Definition check (e : option error) : Go unit :=
  match e with
  | Some err => fail err
  | None => ret tt
  end.

Section OSCalls.
Variable os : OS.

(** [os.MkdirAll(path, perm)]: nothing to do when a directory is there, an
    error when a file is; directories above [path] are not recorded. *)
Definition os_MkdirAll (path : gostring) (perm : N) : Go (option error) :=
  fun w =>
    let w1 := emit (EvMkdirAll path perm) w in
    match fs w !! path with
    | Some (Dir _) => (inr None, w1)
    | Some (File _ _) =>
        (inr (Some (ExternalError (str "not a directory"))), w1)
    | None =>
        match mkdir_fails os (fs w) path with
        | Some e => (inr (Some e), w1)
        | None =>
            (inr None,
             {| fs := <[path := Dir perm]> (fs w); trace := trace w1 |})
        end
    end.

(** [os.RemoveAll(path)]: [path] and everything below it go; a path that
    does not exist is not an error. *)
Definition os_RemoveAll (path : gostring) : Go (option error) :=
  fun w =>
    let w1 := emit (EvRemoveAll path) w in
    match remove_fails os (fs w) path with
    | Some e => (inr (Some e), w1)
    | None =>
        (inr None,
         {| fs := filter (fun kv => path_under os path (fst kv) = false)
                         (fs w);
            trace := trace w1 |})
    end.

(** [gotil.FileExists(path)]: [os.Stat] does not report a missing path. *)
Definition gotil_FileExists (path : gostring) : Go bool :=
  fun w => (inr (bool_decide (is_Some (fs w !! path))), w).

(** [ioutil.WriteFile(path, data, perm)]: opens the file, creating it with
    [perm] or truncating the one that is there, and writes [data].  A
    failure at the open leaves everything as it is; a failure after the
    open leaves the file with what went in before it. *)
Definition ioutil_WriteFile (path data : gostring) (perm : N)
  : Go (option error) :=
  fun w =>
    let w1 := emit (EvWriteFile path data perm) w in
    match write_fails os (fs w) path with
    | Some e =>
        match write_partial os (fs w) path, fs w !! path with
        | Some n, Some (File _ perm0) =>
            (inr (Some e),
             {| fs := <[path := File (List.firstn n data) perm0]> (fs w);
                trace := trace w1 |})
        | Some n, None =>
            (inr (Some e),
             {| fs := <[path := File (List.firstn n data) perm]> (fs w);
                trace := trace w1 |})
        | _, _ => (inr (Some e), w1)
        end
    | None =>
        match fs w !! path with
        | Some (Dir _) =>
            (inr (Some (ExternalError (str "is a directory"))), w1)
        | Some (File _ perm0) =>
            (inr None,
             {| fs := <[path := File data perm0]> (fs w);
                trace := trace w1 |})
        | None =>
            (inr None,
             {| fs := <[path := File data perm]> (fs w);
                trace := trace w1 |})
        end
    end.
End OSCalls.

(** ** The module: [newModule] and its accessors *)

(** What the module consumes of package [core] and of the configuration
    object: [c.Config.Copy()], [GetBool], [Set], [core.New], the assignment
    to [r.Context], [m.r.Config.GetString] and [m.r.InitDrivers()]. *)
Record CoreAPI (CoreConfig RexRay : Type) : Type := mkCoreAPI {
  config_Copy : CoreConfig -> error + CoreConfig;
  config_GetBool : CoreConfig -> gostring -> bool;
  config_Set : CoreConfig -> gostring -> bool -> CoreConfig;
  core_New : CoreConfig -> RexRay;
  set_Context : RexRay -> gostring -> RexRay;
  config_GetString : RexRay -> gostring -> gostring;
  InitDrivers_result : RexRay -> option error
}.
Arguments config_Copy {_ _} _ _.
Arguments config_GetBool {_ _} _ _ _.
Arguments config_Set {_ _} _ _ _ _.
Arguments core_New {_ _} _ _.
Arguments set_Context {_ _} _ _ _.
Arguments config_GetString {_ _} _ _ _.
Arguments InitDrivers_result {_ _} _ _.

(** [module.Config], the fields the module reads or writes. *)
Record Config (CoreConfig : Type) : Type := mkConfig {
  Name : gostring;
  Description : gostring;
  Address : gostring;
  Config_ : CoreConfig
}.
Arguments mkConfig {_} _ _ _ _.
Arguments Name {_} _.
Arguments Description {_} _.
Arguments Address {_} _.
Arguments Config_ {_} _.

(** [type mod struct] ([mod] is taken by the arithmetic notations). *)
Record Mod (RexRay : Type) : Type := mkMod {
  r : RexRay;
  name : gostring;
  addr : gostring;
  desc : gostring
}.
Arguments mkMod {_} _ _ _ _.
Arguments r {_} _.
Arguments name {_} _.
Arguments addr {_} _.
Arguments desc {_} _.

Definition eqs (a b : gostring) : bool := bool_decide (a = b).

Section Module.
Context {CoreConfig RexRay : Type}.
Variable core : CoreAPI CoreConfig RexRay.
Variable To_LowerCase : rune -> rune.

(** [newModule(c)]: the configuration as the call leaves it ([c.Address]
    is assigned before anything can fail) and the result. *)
Definition newModule (c : Config CoreConfig)
  : Config CoreConfig * (error + Mod RexRay) :=
  let host := TrimSpace (Address c) in
  let host :=
    if eqs host [] then
      if eqs (Name c) (str "default-docker")
      then str "unix:///run/docker/plugins/rexray.sock"
      else
        let fname := cleanName To_LowerCase (Name c) in
        str "unix:///run/docker/plugins/" ++ fname ++ str ".sock"
    else host in
  let c := mkConfig (Name c) (Description c) host (Config_ c) in
  match config_Copy core (Config_ c) with
  | inl err => (c, inl err)
  | inr cc =>
      let cc :=
        if negb (config_GetBool core cc
                   (str "rexray.volume.path.disableCache"))
        then config_Set core cc (str "rexray.volume.path.cache") true
        else cc in
      let r := core_New core cc in
      let r := set_Context core r (Name c) in
      (c, inr (mkMod r (Name c) host (Description c)))
  end.

Definition mod_Stop (m : Mod RexRay) : option error := None.
Definition mod_Name (m : Mod RexRay) : gostring := name m.
Definition mod_Description (m : Mod RexRay) : gostring := desc m.
Definition mod_Address (m : Mod RexRay) : gostring := addr m.

(** ** [Start] *)

Variable os : OS.
(** [gotil.ParseAddress]: protocol and path of an address, or an error. *)
Variable gotil_ParseAddress : gostring -> error + (gostring * gostring).

Definition InitDrivers (m : Mod RexRay) : Go (option error) :=
  fun w => (inr (InitDrivers_result core (r m)), emit EvInitDrivers w).

(** [go func() { ... startFunc() ... }()]: the launch is recorded; what
    the goroutine does from then on (the bind, the socket file it makes)
    runs beside [Start] and is not part of this world. *)
Definition go_startFunc (s : Server) : Go unit :=
  fun w => (inr tt, emit (EvGo s) w).

(** The discovery path: the configured "spec" or the default. *)
Definition specFile (m : Mod RexRay) : gostring :=
  let spec := config_GetString core (r m) (str "spec") in
  if eqs spec [] then
    if eqs (name m) (str "default-docker")
    then str "/etc/docker/plugins/rexray.spec"
    else
      let fname := cleanName To_LowerCase (name m) in
      str "/etc/docker/plugins/" ++ fname ++ str ".spec"
  else spec.

(** Lines 102-173: the address is parsed and checked, the drivers are
    initialised, the directories made and a stale socket removed; the
    result is what goes into the discovery file and what will serve. *)
Definition prepare (m : Mod RexRay) : Go (gostring * Server) :=
  match gotil_ParseAddress (mod_Address m) with
  | inl parseAddrErr => fail parseAddrErr
  | inr (proto, addr) =>
    do _ <- (if eqs proto (str "unix")
             then os_MkdirAll os (filepath_Dir os addr) perm0755
             else ret None);
    if negb (MatchString validProtoPatt proto)
    then fail (goof_WithField (str "protocol") proto
                 (str "invalid protocol"))
    else
    do err <- InitDrivers m;
    match err with
    | Some err =>
        fail (goof_WithFieldsE [str "m"; str "m.r"]
                (str "error initializing drivers") err)
    | None =>
    do err <- os_MkdirAll os (str "/etc/docker/plugins") perm0755;
    do _ <- check err;
    if eqs proto (str "unix") then
      let sockFile := addr in
      let sockFileDir := filepath_Dir os sockFile in
      do mkSockFileDirErr <- os_MkdirAll os sockFileDir perm0755;
      do _ <- check mkSockFileDirErr;
      do _ <- os_RemoveAll os sockFile;
      ret (mod_Address m, UnixServer sockFile)
    else
      ret (addr, TCPServer addr 10 10 (2 ^ 20))
    end
  end.

(** Lines 182-198: the discovery file is written unless something is
    already at its path. *)
Definition publish (m : Mod RexRay) (specPath : gostring) : Go unit :=
  let spec := specFile m in
  do exists_ <- gotil_FileExists spec;
  if negb exists_ then
    do err <- ioutil_WriteFile os spec specPath perm0644;
    check err
  else ret tt.

Definition Start_body (m : Mod RexRay) : Go unit :=
  do ps <- prepare m;
  let '(specPath, startFunc) := ps in
  do _ <- go_startFunc startFunc;
  publish m specPath.

(** [m.Start()]: the error returned ([None] for nil) and the world left. *)
Definition Start (m : Mod RexRay) (w : World) : option error * World :=
  match Start_body m w with
  | (inl e, w') => (Some e, w')
  | (inr _, w') => (None, w')
  end.

End Module.

(** ** Test doubles

    Concrete collaborators for concrete runs: a configuration kept as a map,
    an operating system where no call fails and paths are compared as text,
    and an address parser that splits at the first "://". *)

Module Fake.

Definition CoreConfig : Type := gmap (list N) (list N).
Definition RexRay : Type := (gmap (list N) (list N) * list N)%type.

Definition core : CoreAPI CoreConfig RexRay :=
  {| config_Copy := fun c => inr c;
     config_GetBool := fun c k => eqs (default [] (c !! k)) (str "true");
     config_Set := fun c k b =>
                     <[k := if b then str "true" else str "false"]> c;
     core_New := fun c => (c, []);
     set_Context := fun r n => (fst r, n);
     config_GetString := fun r k => default [] (fst r !! k);
     InitDrivers_result := fun _ => None |}.

Fixpoint hasPrefix (p s : gostring) : bool :=
  match p, s with
  | [], _ => true
  | a :: p', b :: s' => (a =? b) && hasPrefix p' s'
  | _ :: _, [] => false
  end.

(** The text before the last slash, "/" for a path directly under the
    root, "." without a slash: [filepath.Dir] on a clean path. *)
Fixpoint dirOf_aux (s : gostring) : option gostring :=
  match s with
  | [] => None
  | c :: t =>
      match dirOf_aux t with
      | Some d => Some (c :: d)
      | None => if c =? 47 then Some [] else None
      end
  end.

Definition dirOf (s : gostring) : gostring :=
  match dirOf_aux s with
  | Some [] => str "/"
  | Some d => d
  | None => str "."
  end.

Definition under (p q : gostring) : bool :=
  eqs p q || hasPrefix (p ++ str "/") q.

Definition os : OS :=
  {| filepath_Dir := dirOf;
     path_under := under;
     mkdir_fails := fun _ _ => None;
     remove_fails := fun _ _ => None;
     write_fails := fun _ _ => None;
     write_partial := fun _ _ => None |}.

Fixpoint splitScheme (s : gostring) : option (gostring * gostring) :=
  match s with
  | [] => None
  | c :: t =>
      if hasPrefix (str "://") s then Some ([], List.skipn 3 s)
      else match splitScheme t with
           | Some (a, b) => Some (c :: a, b)
           | None => None
           end
  end.

Definition ParseAddress (a : gostring) : error + (gostring * gostring) :=
  match splitScheme a with
  | Some (proto, path) =>
      if eqs proto [] || eqs path []
      then inl (GoofError (str "invalid address") [(str "address", Some a)])
      else inr (proto, path)
  | None => inl (GoofError (str "invalid address") [(str "address", Some a)])
  end.

Definition world0 : World := {| fs := ∅; trace := [] |}.

(** A world where a discovery file is left from an earlier start. *)
Definition worldWithSpec : World :=
  {| fs := {[ str "/etc/docker/plugins/rexray.spec"
              := File (str "unix:///run/docker/plugins/rexray.sock")
                   perm0644 ]};
     trace := [] |}.

(** A world where an unclean shutdown left the socket file behind. *)
Definition worldWithStaleSocket : World :=
  {| fs := {[ str "/run/docker/plugins/rexray.sock" := File [] 493 ]};
     trace := [] |}.

(** A module as [newModule] builds it from a name and an address. *)
Definition module (nm address : string) : Mod RexRay :=
  match snd (newModule core sampleCaseTable
               (mkConfig (str nm) [] (str address) ∅)) with
  | inr m => m
  | inl _ => mkMod (∅, []) [] [] []
  end.

Definition start (nm address : string) (w : World) : option error * World :=
  Start core sampleCaseTable os ParseAddress (module nm address) w.

End Fake.

(** ** The verb dispatcher: [buildMux] *)

(** [http.ResponseWriter]: the header map, the status once it is written and
    the body.  A header set after the status is written is not sent, and the
    first write sends status 200 when none was written.  (Every write of
    this package follows a [Set] of Content-Type, so the content sniffing of
    [Write] never applies.) *)
Record ResponseWriter : Type := mkRW {
  header : gmap (list N) (list N);
  status : option N;
  body : gostring
}.

Definition newResponse : ResponseWriter :=
  {| header := ∅; status := None; body := [] |}.

Definition Header_Set (k v : gostring) (w : ResponseWriter) : ResponseWriter :=
  match status w with
  | None => {| header := <[k := v]> (header w); status := None; body := body w |}
  | Some _ => w
  end.

Definition WriteHeader (code : N) (w : ResponseWriter) : ResponseWriter :=
  match status w with
  | None => {| header := header w; status := Some code; body := body w |}
  | Some _ => w
  end.

Definition Write (data : gostring) (w : ResponseWriter) : ResponseWriter :=
  let w := WriteHeader 200 w in
  {| header := header w; status := status w; body := body w ++ data |}.

(** [fmt.Fprintln(w, s)] *)
Definition Fprintln (s : gostring) (w : ResponseWriter) : ResponseWriter :=
  Write (s ++ [10]) w.

(** [http.Error(w, msg, code)] *)
Definition http_Error (msg : gostring) (code : N) (w : ResponseWriter)
  : ResponseWriter :=
  let w := Header_Set (str "Content-Type") (str "text/plain; charset=utf-8") w in
  let w := Header_Set (str "X-Content-Type-Options") (str "nosniff") w in
  let w := WriteHeader code w in
  Fprintln msg w.

Definition pluginContentType : gostring :=
  str "application/vnd.docker.plugins.v1.2+json".

(** [fmt.Sprintf("{\"Error\":\"%s\"}", msg)] *)
Definition Sprintf_Error (msg : gostring) : gostring :=
  str "{" ++ [dquote] ++ str "Error" ++ [dquote] ++ str ":" ++ [dquote]
  ++ msg ++ [dquote] ++ str "}".

(** [fmt.Sprintf("{\"Mountpoint\": \"%s\"}", mountPath)] *)
Definition Sprintf_Mountpoint (mountPath : gostring) : gostring :=
  str "{" ++ [dquote] ++ str "Mountpoint" ++ [dquote] ++ str ": " ++ [dquote]
  ++ mountPath ++ [dquote] ++ str "}".

(** The literal of [/Plugin.Activate]: {"Implements": ["VolumeDriver"]} *)
Definition activateBody : gostring :=
  str "{" ++ [dquote] ++ str "Implements" ++ [dquote] ++ str ": ["
  ++ [dquote] ++ str "VolumeDriver" ++ [dquote] ++ str "]}".

Section Dispatcher.
(** [core.VolumeOpts] and [core.VolumeMap], opaque to this package. *)
Context {VolumeOpts VolumeMap : Type}.

Record pluginRequest : Type := mkPR {
  pr_Name : gostring;
  pr_Opts : VolumeOpts
}.

(** [encoding/json] as the handlers use it: [Decode] of the request body
    into a [pluginRequest], and what [Encode] writes for the two maps. *)
Record Codec : Type := mkCodec {
  json_Decode : gostring -> error + pluginRequest;
  json_Encode_Volume : VolumeMap -> gostring;
  json_Encode_Volumes : list VolumeMap -> gostring
}.

(** [m.r.Volume], the Volume Manager. *)
Record VolumeManager : Type := mkVM {
  Volume_Create : gostring -> VolumeOpts -> option error;
  Volume_Remove : gostring -> option error;
  Volume_Path : gostring -> gostring -> error + gostring;
  Volume_Mount : gostring -> gostring -> bool -> gostring -> bool
                 -> error + gostring;
  Volume_Unmount : gostring -> gostring -> option error;
  Volume_Get : gostring -> error + VolumeMap;
  Volume_List : error + list VolumeMap
}.

(** A call made to the Volume Manager, with its arguments. *)
Inductive VMCall : Type :=
| CallCreate (volumeName : gostring) (opts : VolumeOpts)
| CallRemove (volumeName : gostring)
| CallPath (volumeName volumeID : gostring)
| CallMount (volumeName volumeID : gostring) (overwriteFs : bool)
            (newFsType : gostring) (preempt : bool)
| CallUnmount (volumeName volumeID : gostring)
| CallGet (volumeName : gostring)
| CallList.

(** What a handler leaves behind: the response and the Volume Manager
    calls it made (logging is not kept). *)
Record Served : Type := mkServed {
  response : ResponseWriter;
  calls : list VMCall
}.

Variable codec : Codec.
Variable vm : VolumeManager.

Definition respond (f : ResponseWriter -> ResponseWriter) (cs : list VMCall)
  : Served :=
  {| response := f newResponse; calls := cs |}.

Definition reply500 (err : error) : ResponseWriter -> ResponseWriter :=
  http_Error (Sprintf_Error (Error err)) 500.

Definition replyJSON (line : gostring) : ResponseWriter -> ResponseWriter :=
  fun w => Fprintln line (Header_Set (str "Content-Type") pluginContentType w).

Definition Plugin_Activate (reqBody : gostring) : Served :=
  respond (replyJSON activateBody) [].

(** The methods of [m.r.Volume] as a handler calls them: the call goes to
    the Volume Manager and is entered, with its arguments, in the log of
    the calls made so far. *)
Definition call_Create (volumeName : gostring) (opts : VolumeOpts)
           (log : list VMCall) : option error * list VMCall :=
  (Volume_Create vm volumeName opts, log ++ [CallCreate volumeName opts]).

Definition call_Remove (volumeName : gostring) (log : list VMCall)
  : option error * list VMCall :=
  (Volume_Remove vm volumeName, log ++ [CallRemove volumeName]).

Definition call_Path (volumeName volumeID : gostring) (log : list VMCall)
  : (error + gostring) * list VMCall :=
  (Volume_Path vm volumeName volumeID, log ++ [CallPath volumeName volumeID]).

Definition call_Mount (volumeName volumeID : gostring) (overwriteFs : bool)
           (newFsType : gostring) (preempt : bool) (log : list VMCall)
  : (error + gostring) * list VMCall :=
  (Volume_Mount vm volumeName volumeID overwriteFs newFsType preempt,
   log ++ [CallMount volumeName volumeID overwriteFs newFsType preempt]).

Definition call_Unmount (volumeName volumeID : gostring)
           (log : list VMCall) : option error * list VMCall :=
  (Volume_Unmount vm volumeName volumeID,
   log ++ [CallUnmount volumeName volumeID]).

Definition call_Get (volumeName : gostring) (log : list VMCall)
  : (error + VolumeMap) * list VMCall :=
  (Volume_Get vm volumeName, log ++ [CallGet volumeName]).

Definition call_List (log : list VMCall)
  : (error + list VolumeMap) * list VMCall :=
  (Volume_List vm, log ++ [CallList]).

Definition VolumeDriver_Create (reqBody : gostring) : Served :=
  match json_Decode codec reqBody with
  | inl err => respond (reply500 err) []
  | inr pr =>
      let '(res, log) := call_Create (pr_Name pr) (pr_Opts pr) [] in
      match res with
      | Some err => respond (reply500 err) log
      | None => respond (replyJSON (str "{}")) log
      end
  end.

Definition VolumeDriver_Remove (reqBody : gostring) : Served :=
  match json_Decode codec reqBody with
  | inl err => respond (reply500 err) []
  | inr pr =>
      let '(res, log) := call_Remove (pr_Name pr) [] in
      match res with
      | Some err => respond (reply500 err) log
      | None => respond (replyJSON (str "{}")) log
      end
  end.

Definition VolumeDriver_Path (reqBody : gostring) : Served :=
  match json_Decode codec reqBody with
  | inl err => respond (reply500 err) []
  | inr pr =>
      let '(res, log) := call_Path (pr_Name pr) [] [] in
      match res with
      | inl err => respond (reply500 err) log
      | inr mountPath => respond (replyJSON (Sprintf_Mountpoint mountPath)) log
      end
  end.

Definition VolumeDriver_Mount (reqBody : gostring) : Served :=
  match json_Decode codec reqBody with
  | inl err => respond (reply500 err) []
  | inr pr =>
      let '(res, log) := call_Mount (pr_Name pr) [] false [] false [] in
      match res with
      | inl err => respond (reply500 err) log
      | inr mountPath => respond (replyJSON (Sprintf_Mountpoint mountPath)) log
      end
  end.

Definition VolumeDriver_Unmount (reqBody : gostring) : Served :=
  match json_Decode codec reqBody with
  | inl err => respond (reply500 err) []
  | inr pr =>
      let '(res, log) := call_Unmount (pr_Name pr) [] [] in
      match res with
      | Some err => respond (reply500 err) log
      | None => respond (replyJSON (str "{}")) log
      end
  end.

Definition VolumeDriver_Get (reqBody : gostring) : Served :=
  match json_Decode codec reqBody with
  | inl err => respond (reply500 err) []
  | inr pr =>
      let '(res, log) := call_Get (pr_Name pr) [] in
      match res with
      | inl err => respond (reply500 err) log
      | inr vol =>
          respond (fun w => Write (json_Encode_Volume codec vol)
                              (Header_Set (str "Content-Type")
                                 pluginContentType w)) log
      end
  end.

Definition VolumeDriver_List (reqBody : gostring) : Served :=
  match json_Decode codec reqBody with
  | inl err => respond (reply500 err) []
  | inr pr =>
      let '(res, log) := call_List [] in
      match res with
      | inl err => respond (reply500 err) log
      | inr volList =>
          respond (fun w => Write (json_Encode_Volumes codec volList)
                              (Header_Set (str "Content-Type")
                                 pluginContentType w)) log
      end
  end.

(** The routes [buildMux] registers, in order. *)
Definition buildMux : list (gostring * (gostring -> Served)) :=
  [ (str "/Plugin.Activate", Plugin_Activate);
    (str "/VolumeDriver.Create", VolumeDriver_Create);
    (str "/VolumeDriver.Remove", VolumeDriver_Remove);
    (str "/VolumeDriver.Path", VolumeDriver_Path);
    (str "/VolumeDriver.Mount", VolumeDriver_Mount);
    (str "/VolumeDriver.Unmount", VolumeDriver_Unmount);
    (str "/VolumeDriver.Get", VolumeDriver_Get);
    (str "/VolumeDriver.List", VolumeDriver_List) ].

(** The handler the mux runs for a registered path. *)
Fixpoint route (mux : list (gostring * (gostring -> Served)))
         (path : gostring) : option (gostring -> Served) :=
  match mux with
  | [] => None
  | (pattern, h) :: rest => if eqs pattern path then Some h else route rest path
  end.

Definition serve (path reqBody : gostring) : option Served :=
  match route buildMux path with
  | Some h => Some (h reqBody)
  | None => None
  end.

End Dispatcher.
Arguments pluginRequest : clear implicits.
Arguments Codec : clear implicits.
Arguments VolumeManager : clear implicits.
Arguments VMCall : clear implicits.
Arguments Served : clear implicits.

(** The verbs and their paths. *)
Inductive Verb : Type :=
| VActivate | VCreate | VRemove | VPath | VMount | VUnmount | VGet | VList.

Definition verbPath (v : Verb) : gostring :=
  match v with
  | VActivate => str "/Plugin.Activate"
  | VCreate => str "/VolumeDriver.Create"
  | VRemove => str "/VolumeDriver.Remove"
  | VPath => str "/VolumeDriver.Path"
  | VMount => str "/VolumeDriver.Mount"
  | VUnmount => str "/VolumeDriver.Unmount"
  | VGet => str "/VolumeDriver.Get"
  | VList => str "/VolumeDriver.List"
  end.

Section Handle.
Context {VolumeOpts VolumeMap : Type}.
Variable codec : Codec VolumeOpts VolumeMap.
Variable vm : VolumeManager VolumeOpts VolumeMap.

(** The handler registered for a verb. *)
Definition handle (v : Verb) : gostring -> Served VolumeOpts :=
  match v with
  | VActivate => Plugin_Activate
  | VCreate => VolumeDriver_Create codec vm
  | VRemove => VolumeDriver_Remove codec vm
  | VPath => VolumeDriver_Path codec vm
  | VMount => VolumeDriver_Mount codec vm
  | VUnmount => VolumeDriver_Unmount codec vm
  | VGet => VolumeDriver_Get codec vm
  | VList => VolumeDriver_List codec vm
  end.
End Handle.

(** ** [encoding/json]: the end of the input

    [json.NewDecoder(r.Body).Decode(&pr)] reads the next JSON value from
    the body.  When the body ends before the first byte of a value, it
    returns [io.EOF], whose text is "EOF"; what it makes of a body that is
    not empty is left to [unmarshal]. *)

Definition io_EOF : error := ExternalError (str "EOF").

Definition Decoder_Decode {A : Type} (unmarshal : gostring -> error + A)
           (reqBody : gostring) : error + A :=
  match reqBody with
  | [] => inl io_EOF
  | _ :: _ => unmarshal reqBody
  end.

(** The codec of the handlers, with that decoder in front. *)
Definition goCodec {VolumeOpts VolumeMap : Type}
           (unmarshal : gostring -> error + pluginRequest VolumeOpts)
           (encodeVolume : VolumeMap -> gostring)
           (encodeVolumes : list VolumeMap -> gostring)
  : Codec VolumeOpts VolumeMap :=
  {| json_Decode := Decoder_Decode unmarshal;
     json_Encode_Volume := encodeVolume;
     json_Encode_Volumes := encodeVolumes |}.

(** ** The response envelope as JSON text

    What a JSON reader accepts as an object with the one member "Error"
    holding a string (RFC 8259): inside the string no bare double quote, no
    bare backslash and no control character; a backslash starts an escape. *)

Module Json.

Inductive scanState : Type :=
| Plain
| Escape
| Hex (left : nat).

Definition isHexDigit (c : rune) : bool :=
  isDigit c || ((65 <=? c) && (c <=? 70)) || ((97 <=? c) && (c <=? 102)).

Definition isSimpleEscape (c : rune) : bool :=
  (c =? 34) || (c =? 92) || (c =? 47) || (c =? 98) || (c =? 102)
  || (c =? 110) || (c =? 114) || (c =? 116).

(** Reads a string from just after its opening quote; the text after the
    closing quote when the string is well formed. *)
Fixpoint scanString (st : scanState) (s : gostring) : option gostring :=
  match s with
  | [] => None
  | c :: t =>
      match st with
      | Plain =>
          if c =? 34 then Some t
          else if c =? 92 then scanString Escape t
          else if c <? 32 then None
          else scanString Plain t
      | Escape =>
          if isSimpleEscape c then scanString Plain t
          else if c =? 117 then scanString (Hex 4) t
          else None
      | Hex n =>
          if isHexDigit c then
            match n with
            | S (S n') => scanString (Hex (S n')) t
            | _ => scanString Plain t
            end
          else None
      end
  end.

Fixpoint stripPrefix (p s : gostring) : option gostring :=
  match p, s with
  | [], _ => Some s
  | a :: p', b :: s' => if a =? b then stripPrefix p' s' else None
  | _ :: _, [] => None
  end.

(** {"Error":"..."} followed by nothing or by one newline. *)
Definition errorEnvelope_ok (b : gostring) : bool :=
  match stripPrefix (str "{" ++ [dquote] ++ str "Error" ++ [dquote]
                     ++ str ":" ++ [dquote]) b with
  | Some rest =>
      match scanString Plain rest with
      | Some rest' => eqs rest' (str "}") || eqs rest' (str "}" ++ [10])
      | None => false
      end
  | None => false
  end.

(** A rune that stands for itself inside a JSON string. *)
Definition isPlain (c : rune) : bool :=
  negb (c =? 34) && negb (c =? 92) && negb (c <? 32).

End Json.

Module FakeVM.

Definition VolumeOpts : Type := list (list N * list N).
Definition VolumeMap : Type := list (list N * list N).

(** The text up to the first double quote, and what follows that quote. *)
Fixpoint untilQuote (s : gostring) : option (gostring * gostring) :=
  match s with
  | [] => None
  | c :: t =>
      if c =? 34 then Some ([], t)
      else match untilQuote t with
           | Some (a, b) => Some (c :: a, b)
           | None => None
           end
  end.

Definition EOF : error := ExternalError (str "EOF").

(** A decoder for the bodies the runs below send: nothing (end of input),
    the empty object, or an object with the one member "Name". *)
Definition decode (b : gostring) : error + pluginRequest VolumeOpts :=
  if eqs b [] then inl EOF
  else if eqs b (str "{}") then inr (mkPR [] [])
  else
    match Json.stripPrefix
            (str "{" ++ [dquote] ++ str "Name" ++ [dquote] ++ str ":"
             ++ [dquote]) b with
    | Some rest =>
        match untilQuote rest with
        | Some (nm, rest') =>
            if eqs rest' (str "}") then inr (mkPR nm [])
            else inl (ExternalError (str "invalid character after object"))
        | None => inl (ExternalError (str "unexpected end of JSON input"))
        end
    | None =>
        inl (ExternalError
               (str "invalid character looking for beginning of value"))
    end.

Definition codec : Codec VolumeOpts VolumeMap :=
  {| json_Decode := decode;
     json_Encode_Volume := fun _ =>
       str "{" ++ [dquote] ++ str "Volume" ++ [dquote] ++ str ":{}}" ++ [10];
     json_Encode_Volumes := fun _ =>
       str "{" ++ [dquote] ++ str "Volumes" ++ [dquote] ++ str ":[]}" ++ [10]
  |}.

(** A Volume Manager where every call succeeds. *)
Definition vmOK : VolumeManager VolumeOpts VolumeMap :=
  {| Volume_Create := fun _ _ => None;
     Volume_Remove := fun _ => None;
     Volume_Path := fun nm _ => inr (str "/data/" ++ nm);
     Volume_Mount := fun nm _ _ _ _ => inr (str "/data/" ++ nm);
     Volume_Unmount := fun _ _ => None;
     Volume_Get := fun _ => inr [];
     Volume_List := inr [] |}.

(** A Volume Manager where every call fails with the message [msg]. *)
Definition vmFailing (msg : gostring) : VolumeManager VolumeOpts VolumeMap :=
  {| Volume_Create := fun _ _ => Some (ExternalError msg);
     Volume_Remove := fun _ => Some (ExternalError msg);
     Volume_Path := fun _ _ => inl (ExternalError msg);
     Volume_Mount := fun _ _ _ _ _ => inl (ExternalError msg);
     Volume_Unmount := fun _ _ => Some (ExternalError msg);
     Volume_Get := fun _ => inl (ExternalError msg);
     Volume_List := inl (ExternalError msg) |}.

(** The request body {"Name":"<nm>"} *)
Definition nameBody (nm : string) : gostring :=
  str "{" ++ [dquote] ++ str "Name" ++ [dquote] ++ str ":" ++ [dquote]
  ++ str nm ++ [dquote] ++ str "}".

End FakeVM.

(** ** Vocabulary of the properties *)

(** What is left of a name once it is sanitized: lower-case letters, digits
    and the four signs, with no dash next to a dash. *)
Definition isFinal (c : rune) : bool :=
  isLegalPath c && negb (isUpperASCII c).

(** No dash is followed by a dash. *)
Fixpoint noDoubleDash (s : gostring) : bool :=
  match s with
  | c :: t =>
      match t with
      | c' :: _ => negb ((c =? dash) && (c' =? dash)) && noDoubleDash t
      | [] => true
      end
  | [] => true
  end.

(** [newModule] resolves the address of [c] to [a]: the configuration holds
    [a] afterwards, and the module, built unless copying the configuration
    failed, answers [a] as its address. *)
Definition resolvesTo {CoreConfig RexRay : Type}
           (core : CoreAPI CoreConfig RexRay) (tbl : rune -> rune)
           (c : Config CoreConfig) (a : gostring) : Prop :=
  Address (fst (newModule core tbl c)) = a
  /\ match snd (newModule core tbl c) with
     | inr m => mod_Address m = a /\ mod_Name m = Name c
     | inl err => config_Copy core (Config_ c) = inl err
     end.

(** [p], written in lower case, is a prefix of [s] up to case. *)
Fixpoint hasPrefixFold (p s : gostring) : bool :=
  match p, s with
  | [], _ => true
  | a :: p', b :: s' => (foldASCII b =? a) && hasPrefixFold p' s'
  | _ :: _, [] => false
  end.

(** [p], written in lower case, is [s] up to case. *)
Fixpoint equalFold (p s : gostring) : bool :=
  match p, s with
  | [], [] => true
  | a :: p', b :: s' => (foldASCII b =? a) && equalFold p' s'
  | _, _ => false
  end.

(** [p], written in lower case, is a suffix of [s] up to case. *)
Fixpoint hasSuffixFold (p s : gostring) : bool :=
  equalFold p s
  || match s with
     | _ :: t => hasSuffixFold p t
     | [] => false
     end.

(** The check the message of [errBadProtocol] and the specification
    describe: the protocol is "unix" or "tcp", whatever the case. *)
Definition isUnixOrTcp (proto : gostring) : bool :=
  equalFold (str "unix") proto || equalFold (str "tcp") proto.

(** From a world satisfying [P], the computation ends in a result and a
    world related by [Q]. *)
Definition hoare {A} (P : World -> Prop) (m : Go A)
           (Q : error + A -> World -> Prop) : Prop :=
  forall w, P w -> Q (fst (m w)) (snd (m w)).

(** An invariant of the world that a computation keeps, however it ends. *)
Definition keeps {A} (I : World -> Prop) (m : Go A) : Prop :=
  hoare I m (fun _ w => I w).

(** The event is a file write. *)
Definition isWrite (ev : Event) : Prop :=
  match ev with
  | EvWriteFile _ _ _ => True
  | _ => False
  end.

(** Every file write in the trace of [w] was already in [t0]. *)
Definition noNewWrites (t0 : list Event) (w : World) : Prop :=
  forall ev, In ev (trace w) -> isWrite ev -> In ev t0.

(** Nothing but a directory, if anything, is at [d]. *)
Definition noFileAt (d : gostring) (w : World) : Prop :=
  forall x y, fs w !! d <> Some (File x y).

Ltac bools :=
  repeat match goal with
    | H : _ && _ = true |- _ => apply andb_true_iff in H; destruct H
    | H : _ || _ = false |- _ => apply orb_false_iff in H; destruct H
    | H : _ || _ = true |- _ => apply orb_true_iff in H; destruct H
    | H : _ && _ = false |- _ => apply andb_false_iff in H; destruct H
    | H : negb _ = true |- _ => apply negb_true_iff in H
    | H : negb _ = false |- _ => apply negb_false_iff in H
    | H : (_ <=? _) = true |- _ => apply N.leb_le in H
    | H : (_ <=? _) = false |- _ => apply N.leb_gt in H
    | H : (_ <? _) = true |- _ => apply N.ltb_lt in H
    | H : (_ <? _) = false |- _ => apply N.ltb_ge in H
    | H : (_ =? _) = true |- _ => apply N.eqb_eq in H
    | H : (_ =? _) = false |- _ => apply N.eqb_neq in H
    end.

(** Case analysis on every comparison a rune goes through. *)
Ltac rune_cases :=
  repeat (match goal with
          | |- context [?a <=? ?b] => destruct (N.leb_spec a b)
          | |- context [?a <? ?b] => destruct (N.ltb_spec a b)
          | |- context [?a =? ?b] => destruct (N.eqb_spec a b)
          end; try lia);
  simpl; try reflexivity; try discriminate; try lia.

(** ** govc fields.rm: [Run] of vendor/.../govc/fields/rm.go *)

Module FieldsRm.

(** A call [Run] makes on the custom-fields manager. *)
Inductive Call : Type :=
| FindKeyCall (name : gostring)
| RemoveCall (key : Z).

Section Run.
(** The client, the manager and the fields the server keeps are the
    environment's; [FindKey] reads the fields, [Remove] changes them. *)
Context {Client Manager Fields : Type}.
Variable cmd_Client : error + Client.
Variable GetCustomFieldsManager : Client -> error + Manager.
Variable FindKey : Manager -> Fields -> gostring -> error + Z.
Variable Remove : Manager -> Fields -> Z -> option error * Fields.

(** The body of [for _, name := range f.Args()]: the error returned
    ([None] when the loop ends), the fields left and the calls made. *)
Fixpoint removeKeys (m : Manager) (args : list gostring) (st : Fields)
         (log : list Call) : option error * Fields * list Call :=
  match args with
  | [] => (None, st, log)
  | name :: rest =>
      match FindKey m st name with
      | inl err => (Some err, st, log ++ [FindKeyCall name])
      | inr key =>
          match Remove m st key with
          | (Some err, st') =>
              (Some err, st', log ++ [FindKeyCall name; RemoveCall key])
          | (None, st') =>
              removeKeys m rest st'
                (log ++ [FindKeyCall name; RemoveCall key])
          end
      end
  end.

(** [cmd.Run(f)] with [f.Args() = args]. *)
Definition Run (args : list gostring) (st : Fields)
  : option error * Fields * list Call :=
  match cmd_Client with
  | inl err => (Some err, st, [])
  | inr c =>
      match GetCustomFieldsManager c with
      | inl err => (Some err, st, [])
      | inr m => removeKeys m args st []
      end
  end.
End Run.

(** [cmd.Usage()] *)
Definition Usage : gostring := str "KEY...".

(** The calls of a run that removes [names] under the keys [keys]. *)
Fixpoint callsFor (names : list gostring) (keys : list Z) : list Call :=
  match names, keys with
  | n :: names', k :: keys' => FindKeyCall n :: RemoveCall k :: callsFor names' keys'
  | _, _ => []
  end.

(** A manager for concrete runs: the fields are name/key pairs, a name is
    found when it is listed, and removing a key drops its pairs. *)
Definition fakeFindKey (_ : unit) (st : list (list N * Z)) (name : gostring)
  : error + Z :=
  match List.find (fun p => eqs (fst p) name) st with
  | Some p => inr (snd p)
  | None => inl (ExternalError (str "key name not found"))
  end.

Definition fakeRemove (_ : unit) (st : list (list N * Z)) (key : Z)
  : option error * list (list N * Z) :=
  (None, List.filter (fun p => negb (Z.eqb (snd p) key)) st).

Definition fakeRun (args : list gostring) (st : list (list N * Z))
  : option error * list (list N * Z) * list Call :=
  Run (inr tt) (fun _ => inr tt) fakeFindKey fakeRemove args st.

End FieldsRm.

(** ** More test doubles: collaborators that fail *)

Module FakeFailures.

(** A core whose drivers do not initialise. *)
Definition coreNoDrivers : CoreAPI Fake.CoreConfig Fake.RexRay :=
  {| config_Copy := fun c => inr c;
     config_GetBool := config_GetBool Fake.core;
     config_Set := config_Set Fake.core;
     core_New := core_New Fake.core;
     set_Context := set_Context Fake.core;
     config_GetString := config_GetString Fake.core;
     InitDrivers_result := fun _ => Some (ExternalError (str "no drivers")) |}.

(** A core whose configuration cannot be copied. *)
Definition coreNoCopy : CoreAPI Fake.CoreConfig Fake.RexRay :=
  {| config_Copy := fun _ => inl (ExternalError (str "copy failed"));
     config_GetBool := config_GetBool Fake.core;
     config_Set := config_Set Fake.core;
     core_New := core_New Fake.core;
     set_Context := set_Context Fake.core;
     config_GetString := config_GetString Fake.core;
     InitDrivers_result := fun _ => None |}.

(** An operating system where no file can be written. *)
Definition osReadOnly : OS :=
  {| filepath_Dir := Fake.dirOf;
     path_under := Fake.under;
     mkdir_fails := fun _ _ => None;
     remove_fails := fun _ _ => None;
     write_fails := fun _ _ => Some (ExternalError (str "read-only file system"));
     write_partial := fun _ _ => None |}.

(** An operating system where no directory can be made. *)
Definition osNoMkdir : OS :=
  {| filepath_Dir := Fake.dirOf;
     path_under := Fake.under;
     mkdir_fails := fun _ _ => Some (ExternalError (str "permission denied"));
     remove_fails := fun _ _ => None;
     write_fails := fun _ _ => None;
     write_partial := fun _ _ => None |}.

End FakeFailures.

(** ** More vocabulary *)

(** Every launch of a server in the trace of [w] was already in [t0]. *)
Definition noNewGo (t0 : list Event) (w : World) : Prop :=
  forall s, In (EvGo s) (trace w) -> In (EvGo s) t0.

(** The one call a verb makes on the Volume Manager for a decoded request,
    as the handlers of [buildMux] write it. *)
Definition verbCall {VolumeOpts : Type} (v : Verb)
           (pr : pluginRequest VolumeOpts) : list (VMCall VolumeOpts) :=
  match v with
  | VActivate => []
  | VCreate => [CallCreate (pr_Name pr) (pr_Opts pr)]
  | VRemove => [CallRemove (pr_Name pr)]
  | VPath => [CallPath (pr_Name pr) []]
  | VMount => [CallMount (pr_Name pr) [] false [] false]
  | VUnmount => [CallUnmount (pr_Name pr) []]
  | VGet => [CallGet (pr_Name pr)]
  | VList => [CallList]
  end.

(** The error, if any, that call reports. *)
Definition callError {VolumeOpts VolumeMap : Type}
           (vm : VolumeManager VolumeOpts VolumeMap) (v : Verb)
           (pr : pluginRequest VolumeOpts) : option error :=
  let failed {A} (res : error + A) : option error :=
    match res with inl e => Some e | inr _ => None end in
  match v with
  | VActivate => None
  | VCreate => Volume_Create vm (pr_Name pr) (pr_Opts pr)
  | VRemove => Volume_Remove vm (pr_Name pr)
  | VPath => failed (Volume_Path vm (pr_Name pr) [])
  | VMount => failed (Volume_Mount vm (pr_Name pr) [] false [] false)
  | VUnmount => Volume_Unmount vm (pr_Name pr) []
  | VGet => failed (Volume_Get vm (pr_Name pr))
  | VList => failed (Volume_List vm)
  end.

(** * Properties *)

(** ** Sample runs *)

Example cleanName_ex1 :
  cleanName sampleCaseTable (str "  My Vol_1::x  ") = str "my-vol-1-x".
Proof. reflexivity. Qed.

Example cleanName_ex2 :
  cleanName sampleCaseTable (str "a--b&&c!d/E.~") = str "a-b-cd/e.~".
Proof. reflexivity. Qed.

Example validProto_examples :
  List.map (fun s => MatchString validProtoPatt (str s))
    ["unix"; "tcp"; "UNIX"; "Tcp"; "ftp"; "udp"; "tcp4"; "unixgram"; "footcp";
     "xunix"; "tcpx"; ""]%string
  = [true; true; true; true; false; false; false; true; true;
     false; false; false].
Proof. reflexivity. Qed.

Example dirOf_examples :
  List.map (fun s => Fake.dirOf (str s))
    ["/run/docker/plugins/rexray.sock"; "/x"; "x"]%string
  = [str "/run/docker/plugins"; str "/"; str "."].
Proof. reflexivity. Qed.

Example ParseAddress_examples :
  Fake.ParseAddress (str "unix:///run/x.sock") = inr (str "unix", str "/run/x.sock")
  /\ Fake.ParseAddress (str "tcp://127.0.0.1:8080")
     = inr (str "tcp", str "127.0.0.1:8080").
Proof. split; reflexivity. Qed.

Example start_default_trace :
  trace (snd (Fake.start "default-docker" "" Fake.world0))
  = [ EvMkdirAll (str "/run/docker/plugins") perm0755;
      EvInitDrivers;
      EvMkdirAll (str "/etc/docker/plugins") perm0755;
      EvMkdirAll (str "/run/docker/plugins") perm0755;
      EvRemoveAll (str "/run/docker/plugins/rexray.sock");
      EvGo (UnixServer (str "/run/docker/plugins/rexray.sock"));
      EvWriteFile (str "/etc/docker/plugins/rexray.spec")
        (str "unix:///run/docker/plugins/rexray.sock") perm0644 ].
Proof. vm_compute. reflexivity. Qed.

(** ** The name sanitizer *)

Lemma TrimLeftSpace_Forall (P : rune -> Prop) s :
  Forall P s -> Forall P (TrimLeftSpace s).
Proof.
  induction 1 as [|c t Hc Ht IH]; simpl; [constructor|].
  destruct (c =? 32); [exact IH | constructor; assumption].
Qed.

Lemma TrimSpace_Forall (P : rune -> Prop) s :
  Forall P s -> Forall P (TrimSpace s).
Proof.
  intros H. unfold TrimSpace.
  apply List.Forall_rev, TrimLeftSpace_Forall, List.Forall_rev,
    TrimLeftSpace_Forall, H.
Qed.

Lemma TrimLeftSpace_id s :
  Forall (fun c => c <> 32) s -> TrimLeftSpace s = s.
Proof.
  destruct 1 as [|c t Hc Ht]; simpl; [reflexivity|].
  destruct (N.eqb_spec c 32); [contradiction | reflexivity].
Qed.

Lemma TrimSpace_id s :
  Forall (fun c => c <> 32) s -> TrimSpace s = s.
Proof.
  intros H. unfold TrimSpace.
  rewrite (TrimLeftSpace_id s H).
  rewrite (TrimLeftSpace_id (rev s)) by (apply List.Forall_rev, H).
  apply rev_involutive.
Qed.

Lemma dashes_ReplaceAll_head c t :
  exists t', dashes_ReplaceAll (c :: t) = c :: t'.
Proof.
  revert c. induction t as [|c' t IH]; intros c.
  - exists []. reflexivity.
  - cbn [dashes_ReplaceAll].
    destruct ((c =? dash) && (c' =? dash)) eqn:E.
    + bools. subst c. subst c'. apply IH.
    + eexists. reflexivity.
Qed.

Lemma dashes_ReplaceAll_Forall (P : rune -> Prop) s :
  Forall P s -> Forall P (dashes_ReplaceAll s).
Proof.
  induction 1 as [|c t Hc Ht IH]; [constructor|].
  cbn [dashes_ReplaceAll]. destruct t as [|c' t']; [repeat constructor; exact Hc|].
  destruct ((c =? dash) && (c' =? dash)); [exact IH | constructor; assumption].
Qed.

Lemma dashes_ReplaceAll_noDoubleDash s :
  noDoubleDash (dashes_ReplaceAll s) = true.
Proof.
  induction s as [|c t IH]; [reflexivity|].
  cbn [dashes_ReplaceAll]. destruct t as [|c' t']; [reflexivity|].
  destruct ((c =? dash) && (c' =? dash)) eqn:E; [exact IH|].
  destruct (dashes_ReplaceAll_head c' t') as [x Hx].
  rewrite Hx in IH |- *.
  cbn [noDoubleDash]. rewrite E. exact IH.
Qed.

Lemma dashes_ReplaceAll_id s :
  noDoubleDash s = true -> dashes_ReplaceAll s = s.
Proof.
  induction s as [|c t IH]; [reflexivity|].
  cbn [noDoubleDash dashes_ReplaceAll]. destruct t as [|c' t']; [reflexivity|].
  intros H. apply andb_true_iff in H. destruct H as [H1 H2].
  apply negb_true_iff in H1. rewrite H1. f_equal. apply IH, H2.
Qed.

Lemma isFinal_range c :
  isFinal c = true ->
  48 <= c <= 57 \/ 97 <= c <= 122 \/ c = 126 \/ 45 <= c <= 47.
Proof.
  unfold isFinal, isLegalPath, isDigit, isUpperASCII, isLowerASCII.
  intros H. bools; lia.
Qed.

Lemma isFinal_ToLower tbl c : isFinal c = true -> unicode_ToLower tbl c = c.
Proof.
  intros H. apply isFinal_range in H.
  unfold unicode_ToLower, isUpperASCII. rune_cases.
Qed.

Lemma isFinal_not_separator c : isFinal c = true -> isSeparator c = false.
Proof.
  intros H. apply isFinal_range in H.
  unfold isSeparator. rune_cases.
Qed.

Lemma isFinal_not_space c : isFinal c = true -> c <> 32.
Proof. intros H. apply isFinal_range in H. lia. Qed.

(** A sanitized name is a fixed point of every step of [cleanName]. *)
Lemma cleanName_fixed tbl s :
  Forall (fun c => isFinal c = true) s -> noDoubleDash s = true ->
  cleanName tbl s = s.
Proof.
  intros HF HD. unfold cleanName.
  assert (E1 : ToLower tbl s = s).
  { unfold ToLower. induction HF as [|c t Hc Ht IH]; [reflexivity|].
    simpl. rewrite (isFinal_ToLower tbl c Hc). f_equal. apply IH.
    destruct t; [reflexivity|]. cbn [noDoubleDash] in HD.
    apply andb_true_iff in HD. apply HD. }
  rewrite E1.
  rewrite TrimSpace_id
    by (eapply Forall_impl; [exact HF | intros c Hc; exact (isFinal_not_space c Hc)]).
  assert (E2 : separators_ReplaceAll s = s).
  { unfold separators_ReplaceAll. clear E1 HD.
    induction HF as [|c t Hc Ht IH]; [reflexivity|].
    simpl. rewrite (isFinal_not_separator c Hc). f_equal. exact IH. }
  rewrite E2.
  assert (E3 : illegalPath_ReplaceAll s = s).
  { unfold illegalPath_ReplaceAll. clear E1 E2 HD.
    induction HF as [|c t Hc Ht IH]; [reflexivity|].
    simpl. unfold isFinal in Hc. apply andb_true_iff in Hc.
    destruct Hc as [Hc _]. rewrite Hc. f_equal. exact IH. }
  rewrite E3. apply dashes_ReplaceAll_id, HD.
Qed.

Section SanitizerFacts.
Variable To_LowerCase : rune -> rune.
(** No rune above U+007F has an ASCII capital as its lower case. *)
Hypothesis To_LowerCase_not_upper :
  forall c, 127 < c -> isUpperASCII (To_LowerCase c) = false.

Lemma unicode_ToLower_not_upper c :
  isUpperASCII (unicode_ToLower To_LowerCase c) = false.
Proof.
  unfold unicode_ToLower.
  destruct (N.leb_spec c 127) as [Hle|Hgt].
  - destruct (isUpperASCII c) eqn:E; [|exact E].
    unfold isUpperASCII in *. bools. rune_cases.
  - apply To_LowerCase_not_upper, Hgt.
Qed.

Lemma cleanName_isFinal s :
  Forall (fun c => isFinal c = true) (cleanName To_LowerCase s).
Proof.
  unfold cleanName. apply dashes_ReplaceAll_Forall.
  unfold illegalPath_ReplaceAll, separators_ReplaceAll.
  assert (H : Forall (fun c => isUpperASCII c = false)
                (TrimSpace (ToLower To_LowerCase s))).
  { apply TrimSpace_Forall. unfold ToLower.
    apply List.Forall_map, List.Forall_forall. intros c _.
    apply unicode_ToLower_not_upper. }
  induction H as [|c t Hc Ht IH]; [constructor|].
  simpl.
  destruct (isLegalPath (if isSeparator c then dash else c)) eqn:E;
    [|exact IH].
  constructor; [|exact IH].
  unfold isFinal. rewrite E. simpl.
  destruct (isSeparator c); [reflexivity|]. rewrite Hc. reflexivity.
Qed.

Lemma cleanName_noDoubleDash s :
  noDoubleDash (cleanName To_LowerCase s) = true.
Proof. unfold cleanName. apply dashes_ReplaceAll_noDoubleDash. Qed.
End SanitizerFacts.

(** C8: the name sanitizer is total (a function, with a result for every
    name) and idempotent: sanitizing a sanitized name changes nothing.  The
    Unicode case tables enter through the one fact that they never lower a
    rune above U+007F to an ASCII capital. *)
Theorem cleanName_idempotent (To_LowerCase : rune -> rune) :
  (forall c, 127 < c -> isUpperASCII (To_LowerCase c) = false) ->
  forall n : gostring,
    (exists out, cleanName To_LowerCase n = out)
    /\ cleanName To_LowerCase (cleanName To_LowerCase n)
       = cleanName To_LowerCase n.
Proof.
  intros Htbl n. split; [eexists; reflexivity|].
  apply cleanName_fixed.
  - apply cleanName_isFinal, Htbl.
  - apply cleanName_noDoubleDash.
Qed.

Lemma sampleCaseTable_not_upper c :
  127 < c -> isUpperASCII (sampleCaseTable c) = false.
Proof.
  intros H. unfold sampleCaseTable.
  destruct (c =? 304); [reflexivity|].
  destruct (c =? 8490); [reflexivity|].
  unfold isUpperASCII. rune_cases.
Qed.

Lemma cleanName_idempotent_witness :
  (forall c, 127 < c -> isUpperASCII (sampleCaseTable c) = false)
  /\ cleanName sampleCaseTable (cleanName sampleCaseTable (str " My__Vol--1 "))
     = cleanName sampleCaseTable (str " My__Vol--1 ").
Proof.
  split; [exact sampleCaseTable_not_upper|].
  exact (proj2 (cleanName_idempotent sampleCaseTable
                  sampleCaseTable_not_upper (str " My__Vol--1 "))).
Defined.

(** ** Address derivation in [newModule] *)

Lemma eqs_true a b : eqs a b = true <-> a = b.
Proof. unfold eqs. apply bool_decide_eq_true. Qed.

Lemma eqs_false a b : eqs a b = false <-> a <> b.
Proof. unfold eqs. apply bool_decide_eq_false. Qed.

Lemma eqs_refl a : eqs a a = true.
Proof. apply eqs_true. reflexivity. Qed.

Lemma newModule_resolves {CoreConfig RexRay : Type}
      (core : CoreAPI CoreConfig RexRay) tbl (c : Config CoreConfig) :
  resolvesTo core tbl c
    (if eqs (TrimSpace (Address c)) [] then
       if eqs (Name c) (str "default-docker")
       then str "unix:///run/docker/plugins/rexray.sock"
       else str "unix:///run/docker/plugins/" ++ cleanName tbl (Name c)
            ++ str ".sock"
     else TrimSpace (Address c)).
Proof.
  unfold resolvesTo, newModule. cbn [Config_ Name Description Address].
  destruct (config_Copy core (Config_ c)) as [err|cc]; cbn; auto.
Qed.

(** C7: with an empty configured address, the module's address is
    "unix:///run/docker/plugins/" + cleanName(name) + ".sock" for every name
    but "default-docker", and "unix:///run/docker/plugins/rexray.sock", the
    name not sanitized, for "default-docker". *)
Theorem newModule_empty_address {CoreConfig RexRay : Type}
        (core : CoreAPI CoreConfig RexRay) (tbl : rune -> rune)
        (c : Config CoreConfig) :
  Address c = [] ->
  (Name c <> str "default-docker" ->
   resolvesTo core tbl c
     (str "unix:///run/docker/plugins/" ++ cleanName tbl (Name c)
      ++ str ".sock"))
  /\ (Name c = str "default-docker" ->
      resolvesTo core tbl c (str "unix:///run/docker/plugins/rexray.sock")).
Proof.
  intros Ha. pose proof (newModule_resolves core tbl c) as H.
  rewrite Ha in H. change (TrimSpace []) with (@nil N) in H.
  rewrite eqs_refl in H.
  split; intros Hn.
  - apply eqs_false in Hn. rewrite Hn in H. exact H.
  - apply eqs_true in Hn. rewrite Hn in H. exact H.
Qed.

Lemma newModule_empty_address_witness :
  resolvesTo Fake.core sampleCaseTable
    (mkConfig (str "My Vol_1") (str "volumes") [] ∅)
    (str "unix:///run/docker/plugins/my-vol-1.sock")
  /\ resolvesTo Fake.core sampleCaseTable
       (mkConfig (str "default-docker") [] [] ∅)
       (str "unix:///run/docker/plugins/rexray.sock").
Proof.
  split.
  - apply (proj1 (newModule_empty_address Fake.core sampleCaseTable
                    (mkConfig (str "My Vol_1") (str "volumes") [] ∅)
                    eq_refl)).
    vm_compute. discriminate.
  - apply (proj2 (newModule_empty_address Fake.core sampleCaseTable
                    (mkConfig (str "default-docker") [] [] ∅) eq_refl)).
    reflexivity.
Defined.

(** ** What [validProtoPatt] accepts *)

Lemma validProtoPatt_here st s :
  matchesHere validProtoPatt st s
  = (st && hasPrefixFold (str "unix") s) || equalFold (str "tcp") s.
Proof.
  unfold matchesHere.
  destruct s as [|a [|b [|c [|d t]]]]; destruct st; cbn;
    repeat match goal with
      | |- context [foldASCII ?x =? ?y] => destruct (foldASCII x =? y); cbn
      end; reflexivity.
Qed.

Lemma validProtoPatt_search s :
  searchFrom validProtoPatt false s = hasSuffixFold (str "tcp") s.
Proof.
  induction s as [|c t IH].
  - reflexivity.
  - cbn [searchFrom hasSuffixFold]. rewrite validProtoPatt_here, IH.
    reflexivity.
Qed.

(** The pattern accepts a protocol that starts with "unix" or ends with
    "tcp", up to case, and nothing else. *)
Lemma validProtoPatt_spec proto :
  MatchString validProtoPatt proto
  = hasPrefixFold (str "unix") proto || hasSuffixFold (str "tcp") proto.
Proof.
  unfold MatchString. destruct proto as [|c t].
  - reflexivity.
  - cbn [searchFrom hasSuffixFold].
    rewrite validProtoPatt_here, validProtoPatt_search.
    cbn [andb]. rewrite orb_assoc. reflexivity.
Qed.

Lemma equalFold_hasPrefixFold p s :
  equalFold p s = true -> hasPrefixFold p s = true.
Proof.
  revert s. induction p as [|a p IH]; intros [|b s]; cbn; try congruence.
  intros H. apply andb_true_iff in H. destruct H as [H1 H2].
  rewrite H1. cbn. apply IH, H2.
Qed.

(** Every protocol that is "unix" or "tcp" up to case passes the pattern. *)
Lemma isUnixOrTcp_accepted proto :
  isUnixOrTcp proto = true -> MatchString validProtoPatt proto = true.
Proof.
  unfold isUnixOrTcp. intros H. rewrite validProtoPatt_spec.
  apply orb_true_iff in H. apply orb_true_iff. destruct H as [H|H].
  - left. apply equalFold_hasPrefixFold, H.
  - right. destruct proto; cbn [hasSuffixFold]; rewrite H; reflexivity.
Qed.

(** ** A program logic for [Go] computations *)

Lemma hoare_ret {A} (P : World -> Prop) (a : A) Q :
  (forall w, P w -> Q (inr a) w) -> hoare P (ret a) Q.
Proof. intros H w Hw. apply H, Hw. Qed.

Lemma hoare_fail {A} (P : World -> Prop) e (Q : error + A -> World -> Prop) :
  (forall w, P w -> Q (inl e) w) -> hoare P (fail e) Q.
Proof. intros H w Hw. apply H, Hw. Qed.

Lemma hoare_bind {A B} (P : World -> Prop) (m : Go A) (k : A -> Go B)
      (R : A -> World -> Prop) (Q : error + B -> World -> Prop) :
  hoare P m (fun res w => match res with
                          | inl e => Q (inl e) w
                          | inr a => R a w
                          end) ->
  (forall a, hoare (R a) (k a) Q) ->
  hoare P (bind m k) Q.
Proof.
  intros Hm Hk w Hw. specialize (Hm w Hw). unfold bind.
  destruct (m w) as [[e|a] w']; cbn in *.
  - exact Hm.
  - apply Hk, Hm.
Qed.

Lemma hoare_check (P : World -> Prop) err (Q : error + unit -> World -> Prop) :
  (forall w, P w -> match err with
                    | Some e => Q (inl e) w
                    | None => Q (inr tt) w
                    end) ->
  hoare P (check err) Q.
Proof. intros H w Hw. specialize (H w Hw). destruct err; exact H. Qed.

Lemma keeps_bind {A B} I (m : Go A) (k : A -> Go B) :
  keeps I m -> (forall a, keeps I (k a)) -> keeps I (bind m k).
Proof.
  intros Hm Hk. apply (hoare_bind I m k (fun _ w => I w)).
  - intros w Hw. specialize (Hm w Hw). destruct (fst (m w)); exact Hm.
  - exact Hk.
Qed.

Lemma keeps_ret {A} I (a : A) : keeps I (ret a).
Proof. intros w Hw. exact Hw. Qed.

Lemma keeps_fail {A} I e : keeps I (@fail A e).
Proof. intros w Hw. exact Hw. Qed.

Lemma keeps_check I err : keeps I (check err).
Proof. destruct err; [apply keeps_fail | apply keeps_ret]. Qed.

(** ** The operating-system calls *)

Section OSFacts.
Variable os : OS.

(** [os.MkdirAll] leaves every file as it is. *)
Lemma os_MkdirAll_keeps_file dir perm p data fperm :
  keeps (fun w => fs w !! p = Some (File data fperm))
        (os_MkdirAll os dir perm).
Proof.
  intros w Hw. unfold os_MkdirAll.
  destruct (fs w !! dir) as [[d q|q]|] eqn:E; cbn; try exact Hw.
  destruct (mkdir_fails os (fs w) dir); cbn; [exact Hw|].
  rewrite lookup_insert_ne; [exact Hw|]. intros ->. congruence.
Qed.

(** [os.RemoveAll] leaves what is not under the removed path. *)
Lemma os_RemoveAll_keeps_outside path p node :
  path_under os path p = false ->
  keeps (fun w => fs w !! p = Some node) (os_RemoveAll os path).
Proof.
  intros Hu w Hw. unfold os_RemoveAll.
  destruct (remove_fails os (fs w) path); cbn; [exact Hw|].
  apply map_lookup_filter_Some. split; [exact Hw | exact Hu].
Qed.

(** Without a failure, nothing is left at or under the removed path. *)
Lemma os_RemoveAll_removes path w q :
  remove_fails os (fs w) path = None ->
  path_under os path q = true ->
  fs (snd (os_RemoveAll os path w)) !! q = None.
Proof.
  intros Hr Hu. unfold os_RemoveAll. rewrite Hr. cbn.
  apply map_lookup_filter_None. right. intros x _. cbn. congruence.
Qed.

(** The result of [os.RemoveAll] is an error value only: [RemoveAll]
    never ends the computation that calls it. *)
Lemma os_RemoveAll_goes_on path w :
  exists res, fst (os_RemoveAll os path w) = inr res.
Proof.
  unfold os_RemoveAll. destruct (remove_fails os (fs w) path); cbn; eauto.
Qed.
End OSFacts.

Lemma keeps_and {A} (I J : World -> Prop) (m : Go A) :
  keeps I m -> keeps J m -> keeps (fun w => I w /\ J w) m.
Proof. intros HI HJ w [Hi Hj]. split; [apply HI, Hi | apply HJ, Hj]. Qed.

Lemma noNewWrites_emit t0 ev w :
  ~ isWrite ev -> noNewWrites t0 w -> noNewWrites t0 (emit ev w).
Proof.
  intros Hev H x Hx Hw. cbn in Hx. apply in_app_or in Hx.
  destruct Hx as [Hx|[<-|[]]]; [exact (H x Hx Hw) | contradiction].
Qed.

Section StartFacts.
Context {CoreConfig RexRay : Type}.
Variable core : CoreAPI CoreConfig RexRay.
Variable tbl : rune -> rune.
Variable os : OS.
Variable ParseAddress : gostring -> error + (gostring * gostring).

Local Abbreviation prepare' := (prepare core os ParseAddress).
Local Abbreviation publish' := (publish core tbl os).
Local Abbreviation Start' := (Start core tbl os ParseAddress).
Local Abbreviation specFile' := (specFile core tbl).

(** [Start] as its three steps in a row. *)
Lemma Start_steps (m : Mod RexRay) w :
  Start' m w
  = match prepare' m w with
    | (inl e, w1) => (Some e, w1)
    | (inr (specPath, startFunc), w1) =>
        match publish' m specPath (emit (EvGo startFunc) w1) with
        | (inl e, w2) => (Some e, w2)
        | (inr _, w2) => (None, w2)
        end
    end.
Proof.
  unfold Start, Start_body, bind.
  destruct (prepare' m w) as [[e|[specPath startFunc]] w1]; reflexivity.
Qed.

Lemma os_MkdirAll_noNewWrites t0 dir perm :
  keeps (noNewWrites t0) (os_MkdirAll os dir perm).
Proof.
  intros w Hw. unfold os_MkdirAll.
  assert (H1 : noNewWrites t0 (emit (EvMkdirAll dir perm) w))
    by (apply noNewWrites_emit; [intros [] | exact Hw]).
  destruct (fs w !! dir) as [[d q|q]|]; cbn; try exact H1.
  destruct (mkdir_fails os (fs w) dir); cbn; exact H1.
Qed.

Lemma os_RemoveAll_noNewWrites t0 path :
  keeps (noNewWrites t0) (os_RemoveAll os path).
Proof.
  intros w Hw. unfold os_RemoveAll.
  assert (H1 : noNewWrites t0 (emit (EvRemoveAll path) w))
    by (apply noNewWrites_emit; [intros [] | exact Hw]).
  destruct (remove_fails os (fs w) path); cbn; exact H1.
Qed.

(** Up to the launch of the server [Start] writes no file, and it leaves
    a file alone unless it lies under the socket path it clears. *)
Lemma prepare_keeps (m : Mod RexRay) (I : World -> Prop) :
  (forall dir perm, keeps I (os_MkdirAll os dir perm)) ->
  (forall proto sock,
      ParseAddress (mod_Address m) = inr (proto, sock) ->
      proto = str "unix" -> keeps I (os_RemoveAll os sock)) ->
  (forall ev w, ~ isWrite ev -> I w -> I (emit ev w)) ->
  keeps I (prepare' m).
Proof.
  intros Hmk Hrm Hemit. unfold prepare.
  destruct (ParseAddress (mod_Address m)) as [e|[proto sock]] eqn:EP;
    [apply keeps_fail|].
  apply keeps_bind.
  { destruct (eqs proto (str "unix")); [apply Hmk | apply keeps_ret]. }
  intros _.
  destruct (negb (MatchString validProtoPatt proto)); [apply keeps_fail|].
  apply keeps_bind.
  { intros w Hw. cbn. apply Hemit; [intros [] | exact Hw]. }
  intros [err|]; [apply keeps_fail|].
  apply keeps_bind; [apply Hmk|]. intros err.
  apply keeps_bind; [apply keeps_check|]. intros _.
  destruct (eqs proto (str "unix")) eqn:EU; [|apply keeps_ret].
  apply eqs_true in EU.
  apply keeps_bind; [apply Hmk|]. intros err'.
  apply keeps_bind; [apply keeps_check|]. intros _.
  apply keeps_bind; [exact (Hrm proto sock eq_refl EU)|]. intros _.
  apply keeps_ret.
Qed.

(** With something at the discovery path, publication does nothing. *)
Lemma publish_existing (m : Mod RexRay) specPath w :
  is_Some (fs w !! specFile' m) -> publish' m specPath w = (inr tt, w).
Proof.
  intros H. unfold publish, bind, gotil_FileExists.
  rewrite bool_decide_eq_true_2 by exact H. reflexivity.
Qed.

(** C4: the discovery file is written only when nothing is at its path;
    a discovery file that exists keeps its content through [Start],
    whatever the address, unless the address is a unix socket path that
    is the discovery path or lies above it (that path is cleared before
    the bind); and [Start] then writes no file at all. *)
Theorem Start_keeps_discovery_file (m : Mod RexRay) (w : World)
        (data : gostring) (perm : N) :
  fs w !! specFile' m = Some (File data perm) ->
  (forall proto sock,
      ParseAddress (mod_Address m) = inr (proto, sock) ->
      proto = str "unix" -> path_under os sock (specFile' m) = false) ->
  fs (snd (Start' m w)) !! specFile' m = Some (File data perm)
  /\ noNewWrites (trace w) (snd (Start' m w)).
Proof.
  intros Hf Hsock.
  set (I := fun w' : World =>
              fs w' !! specFile' m = Some (File data perm)
              /\ noNewWrites (trace w) w').
  assert (HI : I w) by (split; [exact Hf | intros ev Hev _; exact Hev]).
  assert (Hprep : keeps I (prepare' m)).
  { apply prepare_keeps.
    - intros dir q. apply keeps_and;
        [apply os_MkdirAll_keeps_file | apply os_MkdirAll_noNewWrites].
    - intros proto sock HP HU. apply keeps_and;
        [apply os_RemoveAll_keeps_outside, (Hsock proto sock HP HU)
        | apply os_RemoveAll_noNewWrites].
    - intros ev w' Hev [H1 H2]. split; [exact H1|].
      apply noNewWrites_emit; assumption. }
  specialize (Hprep w HI).
  rewrite Start_steps.
  destruct (prepare' m w) as [[e|[specPath startFunc]] w1];
    cbn [fst snd] in Hprep |- *; [exact Hprep|].
  destruct Hprep as [H1 H2].
  rewrite publish_existing by (cbn [emit fs]; rewrite H1; eauto).
  cbn [snd emit fs]. split; [exact H1|].
  apply (noNewWrites_emit _ (EvGo startFunc)); [intros [] | exact H2].
Qed.

(** What [prepare] hands over when it succeeds: the whole address for a
    unix socket, the endpoint alone otherwise. *)
Lemma prepare_result (m : Mod RexRay) w ps w1 :
  prepare' m w = (inr ps, w1) ->
  exists proto ep,
    ParseAddress (mod_Address m) = inr (proto, ep)
    /\ MatchString validProtoPatt proto = true
    /\ InitDrivers_result core (r m) = None
    /\ ps = if eqs proto (str "unix")
            then (mod_Address m, UnixServer ep)
            else (ep, TCPServer ep 10 10 (2 ^ 20)).
Proof.
  unfold prepare, bind, InitDrivers, check, ret, fail. intros H.
  destruct (ParseAddress (mod_Address m)) as [e|[proto ep]]; [discriminate|].
  exists proto, ep. split; [reflexivity|].
  destruct (eqs proto (str "unix")) eqn:EU;
    destruct (MatchString validProtoPatt proto) eqn:EM; cbn in H;
    repeat case_match; simplify_eq; auto.
Qed.

Lemma prepare_noNewWrites (m : Mod RexRay) t0 :
  keeps (noNewWrites t0) (prepare' m).
Proof.
  apply prepare_keeps.
  - intros dir q. apply os_MkdirAll_noNewWrites.
  - intros proto sock _ _. apply os_RemoveAll_noNewWrites.
  - intros ev w Hev H. apply noNewWrites_emit; assumption.
Qed.

(** Publication either finds something at the discovery path and does
    nothing, or finds nothing and writes [specPath] there. *)
Lemma publish_cases (m : Mod RexRay) specPath w :
  (is_Some (fs w !! specFile' m) /\ publish' m specPath w = (inr tt, w))
  \/ (fs w !! specFile' m = None
      /\ exists res fs',
          publish' m specPath w
          = (res, {| fs := fs';
                     trace := trace w
                              ++ [EvWriteFile (specFile' m) specPath
                                    perm0644] |})
          /\ (forall u, res = inr u ->
              fs' = <[specFile' m := File specPath perm0644]> (fs w))).
Proof.
  destruct (fs w !! specFile' m) as [node|] eqn:E.
  - left. split; [eauto|]. apply publish_existing. rewrite E. eauto.
  - right. split; [reflexivity|].
    unfold publish, bind, gotil_FileExists, ioutil_WriteFile, check.
    rewrite bool_decide_eq_false_2
      by (rewrite E; intros [x Hx]; discriminate).
    cbn. rewrite E.
    destruct (write_fails os (fs w) (specFile' m));
      [destruct (write_partial os (fs w) (specFile' m))|]; cbn;
      eexists _, _; (split; [reflexivity|]); intros u Hu;
      [discriminate | discriminate | reflexivity].
Qed.

(** Whatever [Start] writes, it writes to the discovery path with mode
    0644: the module's address, scheme included, when the protocol is the
    lower-case "unix", and the parsed endpoint alone otherwise; when
    [Start] then returns without an error that is the content found at the
    discovery path. *)
Theorem Start_discovery_content (m : Mod RexRay) (w : World)
        (proto ep p data : gostring) (perm : N) :
  ParseAddress (mod_Address m) = inr (proto, ep) ->
  trace w = [] ->
  In (EvWriteFile p data perm) (trace (snd (Start' m w))) ->
  p = specFile' m /\ perm = perm0644
  /\ (proto = str "unix" -> data = mod_Address m)
  /\ (proto <> str "unix" -> data = ep)
  /\ (fst (Start' m w) = None ->
      fs (snd (Start' m w)) !! p = Some (File data perm0644)).
Proof.
  intros HP Ht. rewrite Start_steps.
  pose proof (prepare_noNewWrites m [] w) as Hprep.
  assert (H0 : noNewWrites [] w)
    by (intros ev Hev _; rewrite Ht in Hev; exact Hev).
  specialize (Hprep H0).
  destruct (prepare' m w) as [[e|[specPath startFunc]] w1] eqn:EP;
    cbn [fst snd] in Hprep |- *.
  - intros Hin. destruct (Hprep _ Hin I).
  - destruct (prepare_result m w _ _ EP) as (proto' & ep' & HP' & _ & _ & Hps).
    rewrite HP in HP'. injection HP' as <- <-.
    assert (H1 : noNewWrites [] (emit (EvGo startFunc) w1))
      by (apply noNewWrites_emit; [intros [] | exact Hprep]).
    destruct (publish_cases m specPath (emit (EvGo startFunc) w1))
      as [[_ ->]|[Hnone (res & fs' & -> & Hfs)]].
    + cbn [snd]. intros Hin. destruct (H1 _ Hin I).
    + assert (Hw2 : snd (match res with
                         | inl e => (Some e, {| fs := fs';
                             trace := trace (emit (EvGo startFunc) w1)
                               ++ [EvWriteFile (specFile' m) specPath
                                     perm0644] |})
                         | inr _ => (None, {| fs := fs';
                             trace := trace (emit (EvGo startFunc) w1)
                               ++ [EvWriteFile (specFile' m) specPath
                                     perm0644] |})
                         end)
                    = {| fs := fs';
                         trace := trace (emit (EvGo startFunc) w1)
                                  ++ [EvWriteFile (specFile' m) specPath
                                        perm0644] |})
        by (destruct res; reflexivity).
      rewrite Hw2. cbn [trace fs]. intros Hin.
      apply in_app_or in Hin. destruct Hin as [Hin|[Heq|[]]];
        [destruct (H1 _ Hin I)|].
      injection Heq as <- <- <-.
      split; [reflexivity|]. split; [reflexivity|].
      split; [|split].
      * intros ->. rewrite eqs_refl in Hps. congruence.
      * intros Hne. apply eqs_false in Hne. rewrite Hne in Hps. congruence.
      * destruct res as [e|u]; cbn [fst]; [discriminate|]. intros _.
        rewrite (Hfs u eq_refl). apply lookup_insert_eq.
Qed.

(** The goroutine is launched right after [prepare] succeeds. *)
Lemma Start_after_prepare (m : Mod RexRay) w specPath startFunc w1 :
  prepare' m w = (inr (specPath, startFunc), w1) ->
  exists rest,
    trace (snd (Start' m w)) = trace w1 ++ EvGo startFunc :: rest.
Proof.
  intros EP. rewrite Start_steps, EP.
  destruct (publish_cases m specPath (emit (EvGo startFunc) w1))
    as [[_ ->]|[_ (res & fs' & -> & _)]].
  - exists []. reflexivity.
  - exists [EvWriteFile (specFile' m) specPath perm0644].
    destruct res; cbn; rewrite <- app_assoc; reflexivity.
Qed.

Lemma os_MkdirAll_spec dir perm w :
  noFileAt dir w -> mkdir_fails os (fs w) dir = None ->
  exists f',
    os_MkdirAll os dir perm w
    = (inr None, {| fs := f'; trace := trace w ++ [EvMkdirAll dir perm] |})
    /\ (forall k n, fs w !! k = Some n -> f' !! k = Some n)
    /\ (forall k, noFileAt k w -> forall x y, f' !! k <> Some (File x y))
    /\ (exists q, f' !! dir = Some (Dir q)
                  /\ (fs w !! dir = None -> q = perm)).
Proof.
  intros Hd Hmk. unfold os_MkdirAll.
  destruct (fs w !! dir) as [[x y|q]|] eqn:E.
  - destruct (Hd x y E).
  - exists (fs w). cbn. repeat split; auto.
    exists q. split; [exact E | discriminate].
  - rewrite Hmk. exists (<[dir := Dir perm]> (fs w)). cbn.
    split; [reflexivity|]. split; [|split].
    + intros k n Hk. rewrite lookup_insert_ne; [exact Hk | congruence].
    + intros k Hk x y. destruct (decide (dir = k)) as [->|Hne].
      * rewrite lookup_insert_eq. discriminate.
      * rewrite lookup_insert_ne by exact Hne. apply Hk.
    + exists perm. split; [apply lookup_insert_eq | reflexivity].
Qed.

(** X30: when the parsed protocol is the lower-case "unix", [Start] makes
    the parent directory of the socket (mode 0755, kept as it is when
    already there), then removes whatever is at the socket path, then
    launches the unix listener.  The result of the removal is dropped:
    whether or not something was there, and whether or not the removal
    failed, the sequence goes on; when the removal did not fail, nothing is
    left at the socket path.  (The operating system is taken to resolve a
    path as lying under itself and its parent directory as not.) *)
Theorem Start_unix_socket_cleanup (m : Mod RexRay) (w : World)
        (sock : gostring) :
  ParseAddress (mod_Address m) = inr (str "unix", sock) ->
  InitDrivers_result core (r m) = None ->
  (forall f d, mkdir_fails os f d = None) ->
  noFileAt (filepath_Dir os sock) w ->
  noFileAt (str "/etc/docker/plugins") w ->
  path_under os sock sock = true ->
  path_under os sock (filepath_Dir os sock) = false ->
  exists w1,
    prepare' m w = (inr (mod_Address m, UnixServer sock), w1)
    /\ trace w1
       = trace w
         ++ [ EvMkdirAll (filepath_Dir os sock) perm0755;
              EvInitDrivers;
              EvMkdirAll (str "/etc/docker/plugins") perm0755;
              EvMkdirAll (filepath_Dir os sock) perm0755;
              EvRemoveAll sock ]
    /\ (exists q, fs w1 !! filepath_Dir os sock = Some (Dir q)
                  /\ (fs w !! filepath_Dir os sock = None -> q = perm0755))
    /\ ((forall f, remove_fails os f sock = None) ->
        fs w1 !! sock = None
        /\ forall q, path_under os sock q = true -> fs w1 !! q = None)
    /\ exists rest,
        trace (snd (Start' m w))
        = trace w1 ++ EvGo (UnixServer sock) :: rest.
Proof.
  intros HP HI Hmk Hd He Hself Hu.
  set (dir := filepath_Dir os sock) in *.
  destruct (os_MkdirAll_spec dir perm0755 w Hd (Hmk _ _))
    as (fa & Ea & Hka & Hfa & (qa & Hqa & Hqa')).
  set (wa := {| fs := fa; trace := trace w ++ [EvMkdirAll dir perm0755] |})
    in *.
  set (wb := emit EvInitDrivers wa).
  assert (Heb : noFileAt (str "/etc/docker/plugins") wb)
    by (intros x y; apply (Hfa _ He)).
  destruct (os_MkdirAll_spec (str "/etc/docker/plugins") perm0755 wb Heb
              (Hmk _ _))
    as (fc & Ec & Hkc & Hfc & _).
  set (wc := {| fs := fc;
                trace := trace wb
                         ++ [EvMkdirAll (str "/etc/docker/plugins")
                               perm0755] |}) in *.
  assert (Hdc : noFileAt dir wc).
  { intros x y. apply (Hfc dir). intros x' y'. apply (Hfa _ Hd). }
  destruct (os_MkdirAll_spec dir perm0755 wc Hdc (Hmk _ _))
    as (fd & Ed & Hkd & _ & _).
  set (wd := {| fs := fd;
                trace := trace wc ++ [EvMkdirAll dir perm0755] |}) in *.
  assert (Hdir : fs wd !! dir = Some (Dir qa))
    by (apply Hkd, Hkc, Hqa).
  assert (EP : prepare' m w
               = (inr (mod_Address m, UnixServer sock),
                  snd (os_RemoveAll os sock wd))).
  { unfold prepare. rewrite HP, eqs_refl.
    change (MatchString validProtoPatt (str "unix")) with true.
    unfold bind. fold dir. rewrite Ea. cbn [negb].
    unfold InitDrivers. rewrite HI. fold wa. fold wb. rewrite Ec.
    cbn [check ret]. fold wc. rewrite Ed. cbn [check ret]. fold wd.
    destruct (os_RemoveAll_goes_on os sock wd) as [res Hres].
    destruct (os_RemoveAll os sock wd) as [res' w1] eqn:ER.
    cbn [fst snd] in *. subst res'. reflexivity. }
  exists (snd (os_RemoveAll os sock wd)).
  split; [exact EP|]. split; [|split; [|split]].
  - unfold os_RemoveAll.
    destruct (remove_fails os (fs wd) sock); cbn;
      repeat rewrite <- app_assoc; reflexivity.
  - exists qa. split; [|exact Hqa'].
    apply (os_RemoveAll_keeps_outside os sock dir (Dir qa) Hu wd Hdir).
  - intros Hr. split.
    + apply os_RemoveAll_removes; [apply Hr | exact Hself].
    + intros q Hq. apply os_RemoveAll_removes; [apply Hr | exact Hq].
  - apply (Start_after_prepare m w _ _ _ EP).
Qed.

(** A protocol the pattern does not match ends [Start] at once, with the
    "invalid protocol" error and the world untouched: no driver is
    initialised, no directory made, nothing served. *)
Lemma Start_invalid_protocol (m : Mod RexRay) w proto ep :
  ParseAddress (mod_Address m) = inr (proto, ep) ->
  MatchString validProtoPatt proto = false ->
  Start' m w
  = (Some (goof_WithField (str "protocol") proto (str "invalid protocol")),
     w).
Proof.
  intros HP HM.
  assert (HU : eqs proto (str "unix") = false).
  { apply eqs_false. intros ->. vm_compute in HM. discriminate. }
  rewrite Start_steps. unfold prepare. rewrite HP, HU, HM. reflexivity.
Qed.

End StartFacts.

(** ** Runs of [Start] *)

(** C1: the pattern "(?i)^unix|tcp$" anchors "unix" at the start only and
    "tcp" at the end only.  The protocol "unixgram" is neither "unix" nor
    "tcp", yet [Start] does not reject it: the drivers are initialised and a
    server is launched on the path. *)
Theorem Start_accepts_unixgram :
  isUnixOrTcp (str "unixgram") = false
  /\ MatchString validProtoPatt (str "unixgram") = true
  /\ MatchString validProtoPatt (str "footcp") = true
  /\ Fake.ParseAddress (str "unixgram:///run/docker/plugins/rexray.sock")
     = inr (str "unixgram", str "/run/docker/plugins/rexray.sock")
  /\ fst (Fake.start "default-docker"
            "unixgram:///run/docker/plugins/rexray.sock" Fake.world0) = None
  /\ trace (snd (Fake.start "default-docker"
                   "unixgram:///run/docker/plugins/rexray.sock" Fake.world0))
     = [ EvInitDrivers;
         EvMkdirAll (str "/etc/docker/plugins") perm0755;
         EvGo (TCPServer (str "/run/docker/plugins/rexray.sock") 10 10 1048576);
         EvWriteFile (str "/etc/docker/plugins/rexray.spec")
           (str "/run/docker/plugins/rexray.sock") perm0644 ].
Proof. repeat split; vm_compute; reflexivity. Qed.

(** A protocol that is rejected, for comparison: "ftp". *)
Example Start_rejects_ftp :
  Fake.start "default-docker" "ftp://host" Fake.world0
  = (Some (goof_WithField (str "protocol") (str "ftp")
             (str "invalid protocol")), Fake.world0).
Proof.
  apply (Start_invalid_protocol Fake.core sampleCaseTable Fake.os
           Fake.ParseAddress (Fake.module "default-docker" "ftp://host")
           Fake.world0 (str "ftp") (str "host")); reflexivity.
Qed.

(** C3: the unix branch of [Start] publishes the whole address
    ([specPath = m.Address()]), its sibling branch publishes the parsed
    endpoint ([specPath = addr]).  So a first start with the address
    "tcp://127.0.0.1:8080" leaves "127.0.0.1:8080" in the discovery file,
    not the resolved address with its scheme, while a first start with
    the default unix address leaves that address, scheme included. *)
Theorem Start_tcp_discovery_without_scheme :
  fs Fake.world0 !! str "/etc/docker/plugins/rexray.spec" = None
  /\ mod_Address (Fake.module "default-docker" "tcp://127.0.0.1:8080")
     = str "tcp://127.0.0.1:8080"
  /\ fst (Fake.start "default-docker" "tcp://127.0.0.1:8080" Fake.world0)
     = None
  /\ fs (snd (Fake.start "default-docker" "tcp://127.0.0.1:8080" Fake.world0))
       !! str "/etc/docker/plugins/rexray.spec"
     = Some (File (str "127.0.0.1:8080") perm0644)
  /\ fs (snd (Fake.start "default-docker" "tcp://127.0.0.1:8080" Fake.world0))
       !! str "/etc/docker/plugins/rexray.spec"
     <> Some (File (str "tcp://127.0.0.1:8080") perm0644)
  /\ fs (snd (Fake.start "default-docker" "" Fake.world0))
       !! str "/etc/docker/plugins/rexray.spec"
     = Some (File (str "unix:///run/docker/plugins/rexray.sock") perm0644).
Proof.
  repeat split; try (vm_compute; reflexivity).
  vm_compute. discriminate.
Qed.

(** C9: lines 107 and 140 compare the protocol with "unix" letter for
    letter, while the check of line 112 takes it in any case.  The address
    "UNIX:///run/docker/plugins/rexray.sock" has the unix scheme and passes
    the check, yet [Start] treats it as a TCP address: the directory of the
    socket is not made, the stale socket file stays where it is, and a TCP
    server is launched on the path. *)
Theorem Start_upper_case_unix_skips_cleanup :
  equalFold (str "unix") (str "UNIX") = true
  /\ Fake.ParseAddress (str "UNIX:///run/docker/plugins/rexray.sock")
     = inr (str "UNIX", str "/run/docker/plugins/rexray.sock")
  /\ MatchString validProtoPatt (str "UNIX") = true
  /\ fs Fake.worldWithStaleSocket !! str "/run/docker/plugins/rexray.sock"
     = Some (File [] 493)
  /\ fst (Fake.start "default-docker"
            "UNIX:///run/docker/plugins/rexray.sock"
            Fake.worldWithStaleSocket) = None
  /\ trace (snd (Fake.start "default-docker"
                   "UNIX:///run/docker/plugins/rexray.sock"
                   Fake.worldWithStaleSocket))
     = [ EvInitDrivers;
         EvMkdirAll (str "/etc/docker/plugins") perm0755;
         EvGo (TCPServer (str "/run/docker/plugins/rexray.sock") 10 10 1048576);
         EvWriteFile (str "/etc/docker/plugins/rexray.spec")
           (str "/run/docker/plugins/rexray.sock") perm0644 ]
  /\ fs (snd (Fake.start "default-docker"
                "UNIX:///run/docker/plugins/rexray.sock"
                Fake.worldWithStaleSocket))
       !! str "/run/docker/plugins/rexray.sock"
     = Some (File [] 493)
  /\ fs (snd (Fake.start "default-docker"
                "UNIX:///run/docker/plugins/rexray.sock"
                Fake.worldWithStaleSocket))
       !! str "/run/docker/plugins"
     = None.
Proof. repeat split; vm_compute; reflexivity. Qed.

Lemma Start_discovery_content_witness :
  str "/etc/docker/plugins/my-vol.spec"
  = specFile Fake.core sampleCaseTable
      (Fake.module "My Vol" "unix:///run/docker/plugins/v.sock")
  /\ perm0644 = perm0644
  /\ (str "unix" = str "unix" ->
      str "unix:///run/docker/plugins/v.sock"
      = mod_Address (Fake.module "My Vol" "unix:///run/docker/plugins/v.sock"))
  /\ (str "unix" <> str "unix" ->
      str "unix:///run/docker/plugins/v.sock" = str "/run/docker/plugins/v.sock")
  /\ (fst (Fake.start "My Vol" "unix:///run/docker/plugins/v.sock" Fake.world0)
      = None ->
      fs (snd (Fake.start "My Vol" "unix:///run/docker/plugins/v.sock"
                 Fake.world0))
        !! str "/etc/docker/plugins/my-vol.spec"
      = Some (File (str "unix:///run/docker/plugins/v.sock") perm0644)).
Proof.
  apply (Start_discovery_content Fake.core sampleCaseTable Fake.os
           Fake.ParseAddress
           (Fake.module "My Vol" "unix:///run/docker/plugins/v.sock")
           Fake.world0 (str "unix") (str "/run/docker/plugins/v.sock")).
  - reflexivity.
  - reflexivity.
  - vm_compute. do 6 right. left. reflexivity.
Defined.

(** C4, refuted as stated: a discovery file is there, and [Start] with the
    unix address whose socket path is the discovery path replaces it. *)
Lemma Start_replaces_discovery_file :
  fs Fake.worldWithSpec !! str "/etc/docker/plugins/rexray.spec"
  = Some (File (str "unix:///run/docker/plugins/rexray.sock") perm0644)
  /\ specFile Fake.core sampleCaseTable
       (Fake.module "default-docker" "unix:///etc/docker/plugins/rexray.spec")
     = str "/etc/docker/plugins/rexray.spec"
  /\ fs (snd (Fake.start "default-docker"
                "unix:///etc/docker/plugins/rexray.spec" Fake.worldWithSpec))
       !! str "/etc/docker/plugins/rexray.spec"
     = Some (File (str "unix:///etc/docker/plugins/rexray.spec") perm0644)
  /\ fs (snd (Fake.start "default-docker"
                "unix:///etc/docker/plugins/rexray.spec" Fake.worldWithSpec))
       !! str "/etc/docker/plugins/rexray.spec"
     <> fs Fake.worldWithSpec !! str "/etc/docker/plugins/rexray.spec".
Proof.
  repeat split; try (vm_compute; reflexivity).
  vm_compute. discriminate.
Qed.

Lemma Start_keeps_discovery_file_witness :
  fs (snd (Fake.start "default-docker" "unix:///run/docker/plugins/other.sock"
             Fake.worldWithSpec))
    !! str "/etc/docker/plugins/rexray.spec"
  = Some (File (str "unix:///run/docker/plugins/rexray.sock") perm0644)
  /\ noNewWrites (trace Fake.worldWithSpec)
       (snd (Fake.start "default-docker"
               "unix:///run/docker/plugins/other.sock" Fake.worldWithSpec)).
Proof.
  apply (Start_keeps_discovery_file Fake.core sampleCaseTable Fake.os
           Fake.ParseAddress
           (Fake.module "default-docker"
              "unix:///run/docker/plugins/other.sock")
           Fake.worldWithSpec).
  - reflexivity.
  - intros proto sock H _. vm_compute in H. injection H as <- <-.
    reflexivity.
Defined.

Lemma Start_unix_socket_cleanup_witness :
  exists w1,
    prepare Fake.core Fake.os Fake.ParseAddress
      (Fake.module "default-docker" "") Fake.worldWithStaleSocket
    = (inr (str "unix:///run/docker/plugins/rexray.sock",
            UnixServer (str "/run/docker/plugins/rexray.sock")), w1)
    /\ fs w1 !! str "/run/docker/plugins/rexray.sock" = None
    /\ fs w1 !! str "/run/docker/plugins" = Some (Dir perm0755).
Proof.
  destruct (Start_unix_socket_cleanup Fake.core sampleCaseTable Fake.os
              Fake.ParseAddress (Fake.module "default-docker" "")
              Fake.worldWithStaleSocket
              (str "/run/docker/plugins/rexray.sock"))
    as (w1 & EP & _ & Hdir & Hrm & _).
  - reflexivity.
  - reflexivity.
  - reflexivity.
  - intros x y. vm_compute. discriminate.
  - intros x y. vm_compute. discriminate.
  - reflexivity.
  - reflexivity.
  - exists w1. split; [exact EP|]. split.
    + apply (proj1 (Hrm (fun f => eq_refl))).
    + destruct Hdir as (q & Hq & Hq').
      rewrite (Hq' eq_refl) in Hq. exact Hq.
Defined.

(** ** The verb dispatcher *)

Lemma scanString_plain msg rest :
  forallb Json.isPlain msg = true ->
  Json.scanString Json.Plain (msg ++ dquote :: rest) = Some rest.
Proof.
  induction msg as [|c t IH]; cbn [forallb app]; intros H.
  - reflexivity.
  - apply andb_true_iff in H. destruct H as [Hc Ht].
    unfold Json.isPlain in Hc. cbn [Json.scanString]. bools.
    destruct (N.eqb_spec c 34); [congruence|].
    destruct (N.eqb_spec c 92); [congruence|].
    destruct (N.ltb_spec c 32); [lia|]. apply IH, Ht.
Qed.

(** With a message free of double quotes, backslashes and control
    characters the body of an error response is a well-formed envelope. *)
Lemma Sprintf_Error_plain_ok msg :
  forallb Json.isPlain msg = true ->
  Json.errorEnvelope_ok (Sprintf_Error msg ++ [10]) = true.
Proof.
  intros H. unfold Json.errorEnvelope_ok, Sprintf_Error.
  change (Json.stripPrefix _ _)
    with (Some ((msg ++ [dquote] ++ str "}") ++ [10])).
  cbn iota beta.
  replace ((msg ++ [dquote] ++ str "}") ++ [10])
    with (msg ++ dquote :: (str "}" ++ [10]))
    by (rewrite <- app_assoc; reflexivity).
  rewrite (scanString_plain msg _ H). reflexivity.
Qed.

(** The body of an error response, character by character. *)
Lemma error_body_text msg :
  Sprintf_Error msg ++ [10]
  = str "{" ++ [dquote] ++ str "Error" ++ [dquote] ++ str ":" ++ [dquote]
    ++ msg ++ [dquote] ++ str "}" ++ [10].
Proof.
  unfold Sprintf_Error. repeat rewrite <- app_assoc. reflexivity.
Qed.

Section DispatcherFacts.
Context {VolumeOpts VolumeMap : Type}.
Variable codec : Codec VolumeOpts VolumeMap.
Variable vm : VolumeManager VolumeOpts VolumeMap.

(** The mux routes the path of a verb to the handler of that verb. *)
Lemma serve_verbPath v reqBody :
  serve codec vm (verbPath v) reqBody = Some (handle codec vm v reqBody).
Proof. destruct v; reflexivity. Qed.

(** The two shapes a response of this package has. *)
Lemma reply500_response err :
  reply500 err newResponse
  = {| header := <[str "X-Content-Type-Options" := str "nosniff"]>
                   (<[str "Content-Type" := str "text/plain; charset=utf-8"]>
                      ∅);
       status := Some 500;
       body := Sprintf_Error (Error err) ++ [10] |}.
Proof. reflexivity. Qed.

Lemma plugin_response data :
  Write data (Header_Set (str "Content-Type") pluginContentType newResponse)
  = {| header := <[str "Content-Type" := pluginContentType]> ∅;
       status := Some 200;
       body := data |}.
Proof. reflexivity. Qed.

Lemma reply500_content_type err :
  header (reply500 err newResponse) !! str "Content-Type"
  = Some (str "text/plain; charset=utf-8").
Proof. rewrite reply500_response. vm_compute. reflexivity. Qed.

Lemma plugin_content_type data :
  header (Write data (Header_Set (str "Content-Type") pluginContentType
                        newResponse)) !! str "Content-Type"
  = Some pluginContentType.
Proof. rewrite plugin_response. cbn [header]. apply lookup_insert_eq. Qed.

(** A handler whose [Decode] fails answers 500 with the error text and
    leaves the Volume Manager alone. *)
Lemma handle_decode_failure v reqBody err :
  v <> VActivate ->
  json_Decode codec reqBody = inl err ->
  handle codec vm v reqBody
  = {| response := reply500 err newResponse; calls := [] |}.
Proof.
  intros Hv Hd. destruct v; [congruence| | | | | | |]; cbn [handle];
    unfold VolumeDriver_Create, VolumeDriver_Remove, VolumeDriver_Path,
      VolumeDriver_Mount, VolumeDriver_Unmount, VolumeDriver_Get,
      VolumeDriver_List; rewrite Hd; reflexivity.
Qed.

(** Every response is one of the two shapes. *)
Lemma handle_shapes v reqBody :
  (exists err, response (handle codec vm v reqBody)
               = reply500 err newResponse)
  \/ (exists data,
        response (handle codec vm v reqBody)
        = Write data (Header_Set (str "Content-Type") pluginContentType
                        newResponse)).
Proof.
  destruct v; cbn [handle];
    unfold Plugin_Activate, VolumeDriver_Create, VolumeDriver_Remove,
      VolumeDriver_Path, VolumeDriver_Mount, VolumeDriver_Unmount,
      VolumeDriver_Get, VolumeDriver_List, respond, replyJSON, Fprintln;
    repeat case_match; cbn [response]; eauto.
Qed.

(** C2: a success response (status 200) of any verb carries the
    content type application/vnd.docker.plugins.v1.2+json; an error
    response (status 500) goes out through [http.Error] and carries
    text/plain; charset=utf-8.  There is no third kind. *)
Theorem response_content_type (v : Verb) (reqBody : gostring) :
  exists s,
    serve codec vm (verbPath v) reqBody = Some s
    /\ ((status (response s) = Some 200
         /\ header (response s) !! str "Content-Type"
            = Some pluginContentType)
        \/ (status (response s) = Some 500
            /\ header (response s) !! str "Content-Type"
               = Some (str "text/plain; charset=utf-8"))).
Proof.
  exists (handle codec vm v reqBody). split; [apply serve_verbPath|].
  destruct (handle_shapes v reqBody) as [[err ->]|[data ->]].
  - right. split; [reflexivity | apply reply500_content_type].
  - left. split; [reflexivity | apply plugin_content_type].
Qed.

(** C5: for every verb but activate, a request body that does not decode
    is answered with status 500 and a body that is, character by
    character, {"Error":"<message of the decoder>"} and a newline: an
    object whose one field is Error (a well-formed envelope whenever the
    message needs no escaping); and the handler makes no call to the
    Volume Manager. *)
Theorem decode_failure_response (v : Verb) (reqBody : gostring)
        (err : error) :
  v <> VActivate ->
  json_Decode codec reqBody = inl err ->
  exists s,
    serve codec vm (verbPath v) reqBody = Some s
    /\ status (response s) = Some 500
    /\ body (response s)
       = str "{" ++ [dquote] ++ str "Error" ++ [dquote] ++ str ":"
         ++ [dquote] ++ Error err ++ [dquote] ++ str "}" ++ [10]
    /\ (forallb Json.isPlain (Error err) = true ->
        Json.errorEnvelope_ok (body (response s)) = true)
    /\ calls s = [].
Proof.
  intros Hv Hd. exists (handle codec vm v reqBody).
  split; [apply serve_verbPath|].
  rewrite (handle_decode_failure v reqBody err Hv Hd).
  cbn [response calls]. rewrite reply500_response. cbn [status body].
  split; [reflexivity|]. split; [apply error_body_text|].
  split; [apply Sprintf_Error_plain_ok | reflexivity].
Qed.

End DispatcherFacts.

(** C10: every verb but activate, list included, decodes the request body
    before anything else, and the decoder meets the end of an empty body
    before any value: the answer is status 500 with the body
    {"Error":"EOF"} and a newline, under text/plain and not the plugin
    content type, not a success payload; no call is made to the Volume
    Manager.  This holds whatever the decoder does with other bodies and
    whatever the Volume Manager would answer. *)
Theorem empty_body_response {VolumeOpts VolumeMap : Type}
        (unmarshal : gostring -> error + pluginRequest VolumeOpts)
        (encodeVolume : VolumeMap -> gostring)
        (encodeVolumes : list VolumeMap -> gostring)
        (vm : VolumeManager VolumeOpts VolumeMap) (v : Verb) :
  v <> VActivate ->
  exists s,
    serve (goCodec unmarshal encodeVolume encodeVolumes) vm (verbPath v) []
    = Some s
    /\ status (response s) = Some 500
    /\ body (response s)
       = str "{" ++ [dquote] ++ str "Error" ++ [dquote] ++ str ":"
         ++ [dquote] ++ str "EOF" ++ [dquote] ++ str "}" ++ [10]
    /\ Json.errorEnvelope_ok (body (response s)) = true
    /\ header (response s) !! str "Content-Type"
       = Some (str "text/plain; charset=utf-8")
    /\ header (response s) !! str "Content-Type" <> Some pluginContentType
    /\ calls s = [].
Proof.
  intros Hv.
  exists (handle (goCodec unmarshal encodeVolume encodeVolumes) vm v []).
  split; [apply serve_verbPath|].
  rewrite (handle_decode_failure
             (goCodec unmarshal encodeVolume encodeVolumes) vm v [] io_EOF
             Hv eq_refl).
  cbn [response calls].
  split; [reflexivity|]. split; [reflexivity|]. split; [reflexivity|].
  rewrite reply500_content_type.
  split; [reflexivity|]. split; [|reflexivity].
  vm_compute. discriminate.
Qed.

(** C2, refuted as stated: the error response to a create request with an
    empty body carries text/plain, not the plugin content type. *)
Lemma error_response_is_text_plain :
  exists s,
    serve FakeVM.codec FakeVM.vmOK (verbPath VCreate) [] = Some s
    /\ status (response s) = Some 500
    /\ header (response s) !! str "Content-Type"
       = Some (str "text/plain; charset=utf-8")
    /\ header (response s) !! str "Content-Type" <> Some pluginContentType.
Proof.
  eexists. split; [reflexivity|].
  split; [reflexivity|]. split; [vm_compute; reflexivity|].
  vm_compute. discriminate.
Qed.

Lemma decode_failure_response_witness :
  exists s,
    serve FakeVM.codec FakeVM.vmOK (verbPath VMount) (str "not json") = Some s
    /\ status (response s) = Some 500
    /\ body (response s)
       = str "{" ++ [dquote] ++ str "Error" ++ [dquote] ++ str ":"
         ++ [dquote]
         ++ str "invalid character looking for beginning of value"
         ++ [dquote] ++ str "}" ++ [10]
    /\ (forallb Json.isPlain
          (str "invalid character looking for beginning of value") = true ->
        Json.errorEnvelope_ok (body (response s)) = true)
    /\ calls s = [].
Proof.
  apply (decode_failure_response FakeVM.codec FakeVM.vmOK VMount
           (str "not json")
           (ExternalError
              (str "invalid character looking for beginning of value"))).
  - discriminate.
  - reflexivity.
Defined.

Lemma empty_body_response_witness :
  exists s,
    serve (goCodec FakeVM.decode (json_Encode_Volume FakeVM.codec)
             (json_Encode_Volumes FakeVM.codec))
      FakeVM.vmOK (verbPath VList) [] = Some s
    /\ status (response s) = Some 500
    /\ body (response s)
       = str "{" ++ [dquote] ++ str "Error" ++ [dquote] ++ str ":"
         ++ [dquote] ++ str "EOF" ++ [dquote] ++ str "}" ++ [10]
    /\ Json.errorEnvelope_ok (body (response s)) = true
    /\ header (response s) !! str "Content-Type"
       = Some (str "text/plain; charset=utf-8")
    /\ header (response s) !! str "Content-Type" <> Some pluginContentType
    /\ calls s = [].
Proof.
  apply (empty_body_response FakeVM.decode (json_Encode_Volume FakeVM.codec)
           (json_Encode_Volumes FakeVM.codec) FakeVM.vmOK VList).
  discriminate.
Defined.

(** ** The error envelope as JSON *)

(** C6: the error text goes into the body through "%s", unescaped.  When
    the Volume Manager fails with the message
    volume "vol1" not found
    the response has status 500 and the body
    {"Error":"volume "vol1" not found"}
    which is not a well-formed envelope: the string ends at the second
    double quote. *)
Theorem error_body_not_escaped :
  let msg := str "volume " ++ [dquote] ++ str "vol1" ++ [dquote]
             ++ str " not found" in
  exists s,
    serve FakeVM.codec (FakeVM.vmFailing msg) (verbPath VRemove)
      (FakeVM.nameBody "vol1") = Some s
    /\ calls s = [CallRemove (str "vol1")]
    /\ status (response s) = Some 500
    /\ body (response s)
       = str "{" ++ [dquote] ++ str "Error" ++ [dquote] ++ str ":" ++ [dquote]
         ++ str "volume " ++ [dquote] ++ str "vol1" ++ [dquote]
         ++ str " not found" ++ [dquote] ++ str "}" ++ [10]
    /\ Json.errorEnvelope_ok (body (response s)) = false.
Proof.
  eexists. split; [reflexivity|]. repeat split; vm_compute; reflexivity.
Qed.

Example error_body_plain_message_ok :
  Json.errorEnvelope_ok
    (body (response
             (handle FakeVM.codec (FakeVM.vmFailing (str "no such volume"))
                VRemove (FakeVM.nameBody "vol1")))) = true.
Proof. vm_compute. reflexivity. Qed.

(** * Further properties *)

(** ** More on the name sanitizer *)

Lemma noDoubleDash_app a b :
  noDoubleDash (a ++ dash :: dash :: b) = false.
Proof.
  induction a as [|c a IH]; [reflexivity|].
  cbn [app noDoubleDash].
  destruct (a ++ dash :: dash :: b) as [|c' t] eqn:E.
  - destruct a; discriminate.
  - rewrite IH. apply andb_false_r.
Qed.

(** X1: a sanitized name holds lower-case ASCII letters, digits and the
    signs ~ - . / only, and never two dashes in a row. *)
Theorem cleanName_alphabet (To_LowerCase : rune -> rune) :
  (forall c, 127 < c -> isUpperASCII (To_LowerCase c) = false) ->
  forall n : gostring,
    Forall (fun c => 97 <= c <= 122 \/ 48 <= c <= 57
                     \/ c = 126 \/ c = 45 \/ c = 46 \/ c = 47)
           (cleanName To_LowerCase n)
    /\ (forall a b, cleanName To_LowerCase n <> a ++ [45; 45] ++ b).
Proof.
  intros Htbl n. split.
  - eapply Forall_impl; [apply cleanName_isFinal, Htbl|].
    intros c Hc. apply isFinal_range in Hc. lia.
  - intros a b E.
    pose proof (cleanName_noDoubleDash To_LowerCase n) as H.
    rewrite E in H. cbn [app] in H.
    change 45 with dash in H. rewrite noDoubleDash_app in H. discriminate.
Qed.

Lemma cleanName_alphabet_witness :
  Forall (fun c => 97 <= c <= 122 \/ 48 <= c <= 57
                   \/ c = 126 \/ c = 45 \/ c = 46 \/ c = 47)
         (cleanName sampleCaseTable (str "My Vol_#1"))
  /\ (forall a b,
         cleanName sampleCaseTable (str "My Vol_#1") <> a ++ [45; 45] ++ b).
Proof.
  exact (cleanName_alphabet sampleCaseTable sampleCaseTable_not_upper
           (str "My Vol_#1")).
Defined.

(** X2: the names [cleanName] leaves as they are are exactly the strings
    over that alphabet without two dashes in a row; a name such as
    "../x", slashes and dots included, goes through unchanged. *)
Theorem cleanName_fixed_points (To_LowerCase : rune -> rune) :
  (forall c, 127 < c -> isUpperASCII (To_LowerCase c) = false) ->
  forall n : gostring,
    cleanName To_LowerCase n = n
    <-> Forall (fun c => isFinal c = true) n /\ noDoubleDash n = true.
Proof.
  intros Htbl n. split.
  - intros E. split.
    + rewrite <- E. apply cleanName_isFinal, Htbl.
    + rewrite <- E. apply cleanName_noDoubleDash.
  - intros [H1 H2]. apply cleanName_fixed; assumption.
Qed.

Lemma cleanName_fixed_points_witness :
  cleanName sampleCaseTable (str "../x-1") = str "../x-1"
  <-> Forall (fun c => isFinal c = true) (str "../x-1")
      /\ noDoubleDash (str "../x-1") = true.
Proof.
  exact (cleanName_fixed_points sampleCaseTable sampleCaseTable_not_upper
           (str "../x-1")).
Defined.

Lemma unicode_ToLower_foldASCII tbl c :
  unicode_ToLower tbl (foldASCII c) = unicode_ToLower tbl c.
Proof.
  unfold foldASCII. destruct (isUpperASCII c) eqn:E; [|reflexivity].
  unfold unicode_ToLower. rewrite E. unfold isUpperASCII in *. bools.
  rune_cases.
Qed.

(** X3: the case of ASCII letters does not matter to [cleanName]: two names
    that differ in it only sanitize to the same token. *)
Theorem cleanName_ignores_ascii_case (To_LowerCase : rune -> rune)
        (n n' : gostring) :
  List.map foldASCII n = List.map foldASCII n' ->
  cleanName To_LowerCase n = cleanName To_LowerCase n'.
Proof.
  intros E.
  assert (H : forall s, ToLower To_LowerCase s
                        = ToLower To_LowerCase (List.map foldASCII s)).
  { intros s. unfold ToLower. rewrite List.map_map.
    apply List.map_ext. intros c. symmetry. apply unicode_ToLower_foldASCII. }
  unfold cleanName. rewrite (H n), (H n'), E. reflexivity.
Qed.

Lemma cleanName_ignores_ascii_case_witness :
  cleanName sampleCaseTable (str "MyVol") = cleanName sampleCaseTable (str "myVOL").
Proof.
  apply (cleanName_ignores_ascii_case sampleCaseTable (str "MyVol")
           (str "myVOL")).
  reflexivity.
Defined.

Lemma TrimLeftSpace_spaces_app sp x :
  Forall (fun c => c = 32) sp -> TrimLeftSpace (sp ++ x) = TrimLeftSpace x.
Proof.
  induction 1 as [|c t Hc Ht IH]; [reflexivity|].
  subst c. cbn. exact IH.
Qed.

Lemma TrimLeftSpace_app_spaces x sp :
  Forall (fun c => c = 32) sp ->
  TrimLeftSpace (x ++ sp)
  = match TrimLeftSpace x with
    | [] => []
    | _ :: _ => TrimLeftSpace x ++ sp
    end.
Proof.
  intros Hsp. induction x as [|c t IH].
  - cbn. rewrite <- (app_nil_r sp) at 1.
    apply (TrimLeftSpace_spaces_app sp [] Hsp).
  - cbn. destruct (c =? 32); [exact IH | reflexivity].
Qed.

Lemma TrimSpace_spaces pre x post :
  Forall (fun c => c = 32) pre -> Forall (fun c => c = 32) post ->
  TrimSpace (pre ++ x ++ post) = TrimSpace x.
Proof.
  intros Hpre Hpost. unfold TrimSpace.
  rewrite (TrimLeftSpace_spaces_app pre _ Hpre).
  rewrite (TrimLeftSpace_app_spaces x post Hpost).
  destruct (TrimLeftSpace x) as [|c t] eqn:E; [reflexivity|].
  rewrite rev_app_distr.
  rewrite (TrimLeftSpace_spaces_app (rev post)) by (apply List.Forall_rev, Hpost).
  reflexivity.
Qed.

Lemma Forall_repeat_space k : Forall (fun c => c = 32) (repeat 32 k).
Proof. induction k; cbn; constructor; auto. Qed.

Lemma ToLower_repeat_space tbl k : ToLower tbl (repeat 32 k) = repeat 32 k.
Proof. induction k as [|k IH]; cbn; [reflexivity|]. f_equal. exact IH. Qed.

(** X4: spaces around a name do not matter to [cleanName], however many. *)
Theorem cleanName_ignores_outer_spaces (To_LowerCase : rune -> rune)
        (i j : nat) (n : gostring) :
  cleanName To_LowerCase (repeat 32 i ++ n ++ repeat 32 j)
  = cleanName To_LowerCase n.
Proof.
  unfold cleanName, ToLower. rewrite !List.map_app.
  fold (ToLower To_LowerCase (repeat 32 i)).
  fold (ToLower To_LowerCase (repeat 32 j)).
  rewrite !ToLower_repeat_space.
  rewrite TrimSpace_spaces by apply Forall_repeat_space. reflexivity.
Qed.

Lemma TrimLeftSpace_length s : (length (TrimLeftSpace s) <= length s)%nat.
Proof.
  induction s as [|c t IH]; cbn; [lia|]. destruct (c =? 32); cbn; lia.
Qed.

Lemma dashes_ReplaceAll_length s :
  (length (dashes_ReplaceAll s) <= length s)%nat.
Proof.
  induction s as [|c t IH]; [cbn; lia|].
  cbn [dashes_ReplaceAll]. destruct t as [|c' t']; [cbn; lia|].
  destruct ((c =? dash) && (c' =? dash)); cbn [length] in *; lia.
Qed.

(** X5: sanitizing never makes a name longer. *)
Theorem cleanName_length (To_LowerCase : rune -> rune) (n : gostring) :
  (length (cleanName To_LowerCase n) <= length n)%nat.
Proof.
  unfold cleanName, illegalPath_ReplaceAll, separators_ReplaceAll.
  etransitivity; [apply dashes_ReplaceAll_length|].
  etransitivity; [apply List.filter_length_le|].
  rewrite List.length_map. unfold TrimSpace.
  rewrite List.length_rev.
  etransitivity; [apply TrimLeftSpace_length|].
  rewrite List.length_rev.
  etransitivity; [apply TrimLeftSpace_length|].
  unfold ToLower. rewrite List.length_map. lia.
Qed.

(** ** More on the protocol pattern *)

Lemma equalFold_iff q s : equalFold q s = true <-> List.map foldASCII s = q.
Proof.
  revert s. induction q as [|a q IH]; intros [|b s]; cbn; split;
    try congruence; try discriminate.
  - intros H. apply andb_true_iff in H. destruct H as [H1 H2].
    apply N.eqb_eq in H1. apply IH in H2. congruence.
  - intros H. injection H as H1 H2. apply andb_true_iff.
    split; [apply N.eqb_eq, H1 | apply IH, H2].
Qed.

Lemma hasPrefixFold_iff q s :
  hasPrefixFold q s = true
  <-> exists a b, s = a ++ b /\ List.map foldASCII a = q.
Proof.
  revert s. induction q as [|c q IH]; intros s.
  - cbn. split; [|reflexivity]. intros _. exists [], s. split; reflexivity.
  - destruct s as [|d s]; cbn.
    + split; [discriminate|]. intros (a & b & E & Ha).
      destruct a; cbn in *; discriminate.
    + split.
      * intros H. apply andb_true_iff in H. destruct H as [H1 H2].
        apply N.eqb_eq in H1. apply IH in H2.
        destruct H2 as (a & b & -> & Ha).
        exists (d :: a), b. split; [reflexivity|]. cbn. congruence.
      * intros (a & b & E & Ha). destruct a as [|d' a]; [discriminate|].
        cbn in E, Ha. injection E as <- ->. injection Ha as H1 H2.
        apply andb_true_iff. split; [apply N.eqb_eq, H1|].
        apply IH. exists a, b. split; [reflexivity | exact H2].
Qed.

Lemma hasSuffixFold_iff q s :
  hasSuffixFold q s = true
  <-> exists a b, s = a ++ b /\ List.map foldASCII b = q.
Proof.
  induction s as [|c s IH]; cbn [hasSuffixFold].
  - rewrite orb_false_r, equalFold_iff. split.
    + intros H. exists [], []. split; [reflexivity | exact H].
    + intros (a & b & E & Hb). symmetry in E.
      apply app_eq_nil in E. destruct E as [-> ->]. exact Hb.
  - rewrite orb_true_iff, equalFold_iff, IH. split.
    + intros [H|(a & b & -> & Hb)].
      * exists [], (c :: s). split; [reflexivity | exact H].
      * exists (c :: a), b. split; [reflexivity | exact Hb].
    + intros (a & b & E & Hb). destruct a as [|c' a].
      * cbn in E. subst b. left. exact Hb.
      * cbn in E. injection E as <- ->. right. exists a, b.
        split; [reflexivity | exact Hb].
Qed.

(** X6: the protocol check of [Start] lets through exactly the protocols
    that begin with "unix" or end with "tcp", letters in either case. *)
Theorem validProtoPatt_accepts_iff (proto : gostring) :
  MatchString validProtoPatt proto = true
  <-> (exists a b, proto = a ++ b /\ List.map foldASCII a = str "unix")
      \/ (exists a b, proto = a ++ b /\ List.map foldASCII b = str "tcp").
Proof.
  rewrite validProtoPatt_spec, orb_true_iff, hasPrefixFold_iff,
    hasSuffixFold_iff. reflexivity.
Qed.

(** ** More on [newModule] and the discovery path *)

(** X7: a configured address that is not blank is taken as it is, spaces
    around it trimmed; the name plays no part. *)
Theorem newModule_explicit_address {CoreConfig RexRay : Type}
        (core : CoreAPI CoreConfig RexRay) (tbl : rune -> rune)
        (c : Config CoreConfig) :
  TrimSpace (Address c) <> [] ->
  resolvesTo core tbl c (TrimSpace (Address c)).
Proof.
  intros H. pose proof (newModule_resolves core tbl c) as R.
  apply eqs_false in H. rewrite H in R. exact R.
Qed.

Lemma newModule_explicit_address_witness :
  resolvesTo Fake.core sampleCaseTable
    (mkConfig (str "my vol") [] (str "  tcp://127.0.0.1:8080 ") ∅)
    (str "tcp://127.0.0.1:8080").
Proof.
  apply (newModule_explicit_address Fake.core sampleCaseTable
           (mkConfig (str "my vol") [] (str "  tcp://127.0.0.1:8080 ") ∅)).
  vm_compute. discriminate.
Defined.

Lemma TrimSpace_repeat_space k : TrimSpace (repeat 32 k) = [].
Proof.
  pose proof (TrimSpace_spaces (repeat 32 k) [] []
                (Forall_repeat_space k) (List.Forall_nil _)) as H.
  rewrite app_nil_r in H. exact H.
Qed.

(** X8: an address made of spaces only counts as no address: the default
    is derived from the name, as for the empty address. *)
Theorem newModule_blank_address {CoreConfig RexRay : Type}
        (core : CoreAPI CoreConfig RexRay) (tbl : rune -> rune)
        (c : Config CoreConfig) (k : nat) :
  Address c = repeat 32 k ->
  (Name c <> str "default-docker" ->
   resolvesTo core tbl c
     (str "unix:///run/docker/plugins/" ++ cleanName tbl (Name c)
      ++ str ".sock"))
  /\ (Name c = str "default-docker" ->
      resolvesTo core tbl c (str "unix:///run/docker/plugins/rexray.sock")).
Proof.
  intros Ha. pose proof (newModule_resolves core tbl c) as H.
  rewrite Ha, TrimSpace_repeat_space, eqs_refl in H.
  split; intros Hn.
  - apply eqs_false in Hn. rewrite Hn in H. exact H.
  - apply eqs_true in Hn. rewrite Hn in H. exact H.
Qed.

Lemma newModule_blank_address_witness :
  resolvesTo Fake.core sampleCaseTable
    (mkConfig (str "vol") [] (str "   ") ∅)
    (str "unix:///run/docker/plugins/vol.sock").
Proof.
  apply (proj1 (newModule_blank_address Fake.core sampleCaseTable
                  (mkConfig (str "vol") [] (str "   ") ∅) 3 eq_refl)).
  vm_compute. discriminate.
Defined.

(** [newModule] fails exactly when the configuration cannot be copied,
    with the error of the copy; otherwise the module carries the name and
    the description of the configuration, and its core is made from the
    copy, with the path cache switched on unless
    rexray.volume.path.disableCache is set, and the name as context. *)
Theorem newModule_result {CoreConfig RexRay : Type}
        (core : CoreAPI CoreConfig RexRay) (tbl : rune -> rune)
        (c : Config CoreConfig) :
  match config_Copy core (Config_ c) with
  | inl err => snd (newModule core tbl c) = inl err
  | inr cc =>
      exists m,
        snd (newModule core tbl c) = inr m
        /\ mod_Name m = Name c
        /\ mod_Description m = Description c
        /\ mod_Address m = Address (fst (newModule core tbl c))
        /\ (config_GetBool core cc (str "rexray.volume.path.disableCache")
            = true ->
            r m = set_Context core (core_New core cc) (Name c))
        /\ (config_GetBool core cc (str "rexray.volume.path.disableCache")
            = false ->
            r m = set_Context core
                    (core_New core
                       (config_Set core cc (str "rexray.volume.path.cache")
                          true))
                    (Name c))
  end.
Proof.
  unfold newModule. cbn [Config_ Name Description Address].
  destruct (config_Copy core (Config_ c)) as [err|cc]; [reflexivity|].
  eexists. split; [reflexivity|]. cbn.
  repeat split; intros ->; reflexivity.
Qed.

Section SpecFileFacts.
Context {CoreConfig RexRay : Type}.
Variable core : CoreAPI CoreConfig RexRay.
Variable tbl : rune -> rune.

(** X9: without a configured "spec", the discovery path is
    /etc/docker/plugins/<sanitized name>.spec, and rexray.spec, the name
    not sanitized, for "default-docker". *)
Theorem specFile_default (m : Mod RexRay) :
  config_GetString core (r m) (str "spec") = [] ->
  (name m <> str "default-docker" ->
   specFile core tbl m
   = str "/etc/docker/plugins/" ++ cleanName tbl (name m) ++ str ".spec")
  /\ (name m = str "default-docker" ->
      specFile core tbl m = str "/etc/docker/plugins/rexray.spec").
Proof.
  intros H. unfold specFile. rewrite H, eqs_refl. split; intros Hn.
  - apply eqs_false in Hn. rewrite Hn. reflexivity.
  - apply eqs_true in Hn. rewrite Hn. reflexivity.
Qed.

(** A configured "spec" is the discovery path, whatever the name. *)
Theorem specFile_configured (m : Mod RexRay) :
  config_GetString core (r m) (str "spec") <> [] ->
  specFile core tbl m = config_GetString core (r m) (str "spec").
Proof.
  intros H. unfold specFile. apply eqs_false in H. rewrite H. reflexivity.
Qed.

(** X10: for a module made without an address and started without a
    configured "spec", the socket and the discovery file are named after
    the same token, the sanitized name. *)
Theorem socket_and_discovery_share_token (c : Config CoreConfig)
        (m : Mod RexRay) :
  snd (newModule core tbl c) = inr m ->
  Address c = [] ->
  Name c <> str "default-docker" ->
  config_GetString core (r m) (str "spec") = [] ->
  mod_Address m
  = str "unix:///run/docker/plugins/" ++ cleanName tbl (Name c) ++ str ".sock"
  /\ specFile core tbl m
     = str "/etc/docker/plugins/" ++ cleanName tbl (Name c) ++ str ".spec".
Proof.
  intros Hm Ha Hn Hs.
  pose proof (newModule_resolves core tbl c) as [_ R].
  rewrite Hm in R. destruct R as [R1 R2].
  rewrite Ha in R1. change (TrimSpace []) with (@nil N) in R1.
  rewrite eqs_refl in R1.
  pose proof Hn as Hn'. apply eqs_false in Hn'. rewrite Hn' in R1.
  split; [exact R1|].
  unfold specFile. rewrite Hs, eqs_refl.
  unfold mod_Name in R2. rewrite R2, Hn'. reflexivity.
Qed.
End SpecFileFacts.

Lemma specFile_default_witness :
  specFile Fake.core sampleCaseTable (Fake.module "My Vol" "")
  = str "/etc/docker/plugins/my-vol.spec"
  /\ specFile Fake.core sampleCaseTable (Fake.module "default-docker" "")
     = str "/etc/docker/plugins/rexray.spec".
Proof.
  split.
  - apply (proj1 (specFile_default Fake.core sampleCaseTable
                    (Fake.module "My Vol" "") eq_refl)).
    vm_compute. discriminate.
  - apply (proj2 (specFile_default Fake.core sampleCaseTable
                    (Fake.module "default-docker" "") eq_refl)).
    reflexivity.
Defined.

Lemma specFile_configured_witness :
  specFile Fake.core sampleCaseTable
    (mkMod ({[ str "spec" := str "/tmp/x.spec" ]}, []) (str "vol") [] [])
  = str "/tmp/x.spec".
Proof.
  etransitivity.
  - apply (specFile_configured Fake.core sampleCaseTable
             (mkMod ({[ str "spec" := str "/tmp/x.spec" ]}, []) (str "vol")
                [] [])).
    vm_compute. discriminate.
  - vm_compute. reflexivity.
Defined.

Lemma socket_and_discovery_share_token_witness :
  mod_Address (Fake.module "My Vol" "")
  = str "unix:///run/docker/plugins/my-vol.sock"
  /\ specFile Fake.core sampleCaseTable (Fake.module "My Vol" "")
     = str "/etc/docker/plugins/my-vol.spec".
Proof.
  apply (socket_and_discovery_share_token Fake.core sampleCaseTable
           (mkConfig (str "My Vol") [] [] ∅) (Fake.module "My Vol" "")).
  - reflexivity.
  - reflexivity.
  - vm_compute. discriminate.
  - reflexivity.
Defined.

(** ** More on [Start] *)

Lemma noNewGo_emit t0 ev w :
  (forall s, ev <> EvGo s) -> noNewGo t0 w -> noNewGo t0 (emit ev w).
Proof.
  intros Hev H s Hs. cbn in Hs. apply in_app_or in Hs.
  destruct Hs as [Hs|[Heq|[]]]; [exact (H s Hs)|].
  destruct (Hev s Heq).
Qed.

Section StartMore.
Context {CoreConfig RexRay : Type}.
Variable core : CoreAPI CoreConfig RexRay.
Variable tbl : rune -> rune.
Variable os : OS.
Variable ParseAddress : gostring -> error + (gostring * gostring).

Local Abbreviation prepare' := (prepare core os ParseAddress).
Local Abbreviation publish' := (publish core tbl os).
Local Abbreviation Start' := (Start core tbl os ParseAddress).
Local Abbreviation specFile' := (specFile core tbl).

(** An invariant of [prepare], from what each of its calls keeps; the
    calls of the unix branch count only when the protocol is "unix". *)
Lemma prepare_keeps_gen (m : Mod RexRay) (I : World -> Prop) :
  keeps I (os_MkdirAll os (str "/etc/docker/plugins") perm0755) ->
  (forall sock,
      ParseAddress (mod_Address m) = inr (str "unix", sock) ->
      keeps I (os_MkdirAll os (filepath_Dir os sock) perm0755)
      /\ keeps I (os_RemoveAll os sock)) ->
  (forall w, I w -> I (emit EvInitDrivers w)) ->
  keeps I (prepare' m).
Proof.
  intros Hetc Hunix Hinit. unfold prepare.
  destruct (ParseAddress (mod_Address m)) as [e|[proto sock]] eqn:EP;
    [apply keeps_fail|].
  destruct (eqs proto (str "unix")) eqn:EU.
  - apply eqs_true in EU. subst proto.
    destruct (Hunix sock eq_refl) as [Hmk Hrm].
    apply keeps_bind; [exact Hmk|]. intros _.
    destruct (negb (MatchString validProtoPatt (str "unix")));
      [apply keeps_fail|].
    apply keeps_bind; [intros w Hw; cbn; apply Hinit, Hw|].
    intros [err|]; [apply keeps_fail|].
    apply keeps_bind; [exact Hetc|]. intros err.
    apply keeps_bind; [apply keeps_check|]. intros _.
    apply keeps_bind; [exact Hmk|]. intros err'.
    apply keeps_bind; [apply keeps_check|]. intros _.
    apply keeps_bind; [exact Hrm|]. intros _. apply keeps_ret.
  - apply keeps_bind; [apply keeps_ret|]. intros _.
    destruct (negb (MatchString validProtoPatt proto)); [apply keeps_fail|].
    apply keeps_bind; [intros w Hw; cbn; apply Hinit, Hw|].
    intros [err|]; [apply keeps_fail|].
    apply keeps_bind; [exact Hetc|]. intros err.
    apply keeps_bind; [apply keeps_check|]. intros _.
    apply keeps_ret.
Qed.

Lemma os_MkdirAll_noNewGo t0 dir perm :
  keeps (noNewGo t0) (os_MkdirAll os dir perm).
Proof.
  intros w Hw. unfold os_MkdirAll.
  assert (H1 : noNewGo t0 (emit (EvMkdirAll dir perm) w))
    by (apply noNewGo_emit; [discriminate | exact Hw]).
  destruct (fs w !! dir) as [[d q|q]|]; cbn; try exact H1.
  destruct (mkdir_fails os (fs w) dir); cbn; exact H1.
Qed.

Lemma os_RemoveAll_noNewGo t0 dir :
  keeps (noNewGo t0) (os_RemoveAll os dir).
Proof.
  intros w Hw. unfold os_RemoveAll.
  assert (H1 : noNewGo t0 (emit (EvRemoveAll dir) w))
    by (apply noNewGo_emit; [discriminate | exact Hw]).
  destruct (remove_fails os (fs w) dir); cbn; exact H1.
Qed.

Lemma prepare_noNewGo (m : Mod RexRay) t0 : keeps (noNewGo t0) (prepare' m).
Proof.
  apply prepare_keeps_gen.
  - apply os_MkdirAll_noNewGo.
  - intros sock _. split; [apply os_MkdirAll_noNewGo | apply os_RemoveAll_noNewGo].
  - intros w Hw. apply noNewGo_emit; [discriminate | exact Hw].
Qed.

(** [os.MkdirAll] always comes back, with an error value or without, and
    adds its call to the trace. *)
Lemma os_MkdirAll_run dir perm w :
  exists res f',
    os_MkdirAll os dir perm w
    = (inr res, {| fs := f'; trace := trace w ++ [EvMkdirAll dir perm] |}).
Proof.
  unfold os_MkdirAll.
  destruct (fs w !! dir) as [[d q|q]|]; cbn; eauto.
  destruct (mkdir_fails os (fs w) dir); cbn; eauto.
Qed.

(** The calls [prepare] has made when it succeeds, in order. *)
Lemma prepare_success_trace (m : Mod RexRay) w ps w1 :
  prepare' m w = (inr ps, w1) ->
  exists proto ep,
    ParseAddress (mod_Address m) = inr (proto, ep)
    /\ trace w1
       = trace w
         ++ (if eqs proto (str "unix")
             then [EvMkdirAll (filepath_Dir os ep) perm0755] else [])
         ++ [EvInitDrivers; EvMkdirAll (str "/etc/docker/plugins") perm0755]
         ++ (if eqs proto (str "unix")
             then [EvMkdirAll (filepath_Dir os ep) perm0755; EvRemoveAll ep]
             else []).
Proof.
  unfold prepare, bind, InitDrivers, check, ret, fail, os_MkdirAll,
    os_RemoveAll. intros H.
  destruct (ParseAddress (mod_Address m)) as [e|[proto ep]]; [discriminate|].
  exists proto, ep. split; [reflexivity|].
  destruct (eqs proto (str "unix")) eqn:EU;
    destruct (MatchString validProtoPatt proto) eqn:EM; cbn in H;
    repeat case_match; simplify_eq; cbn; rewrite <- ?app_assoc; reflexivity.
Qed.

(** X11: an address that does not parse ends [Start] at once with the
    parser's error; nothing has been done. *)
Theorem Start_parse_error (m : Mod RexRay) (w : World) (e : error) :
  ParseAddress (mod_Address m) = inl e ->
  Start' m w = (Some e, w).
Proof.
  intros HP. rewrite Start_steps. unfold prepare. rewrite HP. reflexivity.
Qed.

(** X12: a protocol that neither begins with "unix" nor ends with "tcp",
    letters in either case, ends [Start] with the "invalid protocol" error
    that names it; nothing has been done: no driver initialised, no
    directory made, no server launched, no file written. *)
Theorem Start_rejects_unmatched_protocol (m : Mod RexRay) (w : World)
        (proto ep : gostring) :
  ParseAddress (mod_Address m) = inr (proto, ep) ->
  hasPrefixFold (str "unix") proto = false ->
  hasSuffixFold (str "tcp") proto = false ->
  Start' m w
  = (Some (GoofError (str "invalid protocol") [(str "protocol", Some proto)]),
     w).
Proof.
  intros HP H1 H2.
  apply (Start_invalid_protocol core tbl os ParseAddress m w proto ep HP).
  rewrite validProtoPatt_spec, H1, H2. reflexivity.
Qed.

(** X13: when the drivers do not initialise, [Start] returns "error
    initializing drivers" around their error; by then it has at most made
    the socket directory: no server is launched, the discovery directory
    is not made and no file is written. *)
Theorem Start_drivers_failure (m : Mod RexRay) (w : World)
        (proto ep : gostring) (e : error) :
  ParseAddress (mod_Address m) = inr (proto, ep) ->
  MatchString validProtoPatt proto = true ->
  InitDrivers_result core (r m) = Some e ->
  fst (Start' m w)
  = Some (GoofErrorE (str "error initializing drivers")
            [(str "m", None); (str "m.r", None)] e)
  /\ trace (snd (Start' m w))
     = trace w
       ++ (if eqs proto (str "unix")
           then [EvMkdirAll (filepath_Dir os ep) perm0755] else [])
       ++ [EvInitDrivers].
Proof.
  intros HP HM HI. rewrite Start_steps.
  unfold prepare, bind, InitDrivers. rewrite HP, HM, HI. cbn [negb].
  destruct (eqs proto (str "unix")).
  - destruct (os_MkdirAll_run (filepath_Dir os ep) perm0755 w)
      as (res & f' & ->).
    cbn. rewrite <- app_assoc. split; reflexivity.
  - cbn. split; reflexivity.
Qed.

(** X14: a server is launched only after the drivers have initialised, and
    only once: if the trace of [Start] holds a launch, the address parsed,
    its protocol passed the check, the drivers initialised before the
    launch, and there is no other launch; the server is the unix one on the
    parsed path for "unix" and the TCP one (10 s timeouts, 1 MiB of
    headers) on the parsed endpoint otherwise. *)
Theorem Start_launch_after_init (m : Mod RexRay) (w : World) (s : Server) :
  trace w = [] ->
  In (EvGo s) (trace (snd (Start' m w))) ->
  exists proto ep pre post,
    ParseAddress (mod_Address m) = inr (proto, ep)
    /\ MatchString validProtoPatt proto = true
    /\ InitDrivers_result core (r m) = None
    /\ s = (if eqs proto (str "unix") then UnixServer ep
            else TCPServer ep 10 10 1048576)
    /\ trace (snd (Start' m w)) = pre ++ EvGo s :: post
    /\ In EvInitDrivers pre
    /\ (forall s', ~ In (EvGo s') pre)
    /\ (forall s', ~ In (EvGo s') post).
Proof.
  intros Ht. rewrite Start_steps.
  assert (H0 : noNewGo [] w) by (intros x Hx; rewrite Ht in Hx; exact Hx).
  pose proof (prepare_noNewGo m [] w H0) as Hprep.
  destruct (prepare' m w) as [[e|[specPath startFunc]] w1] eqn:EP;
    cbn [fst snd] in Hprep |- *.
  - intros Hin. destruct (Hprep _ Hin).
  - destruct (prepare_result core os ParseAddress m w _ _ EP)
      as (proto & ep & HP & HM & HI & Hps).
    destruct (prepare_success_trace m w _ _ EP) as (proto' & ep' & HP' & Htr).
    rewrite HP in HP'. injection HP' as <- <-.
    assert (Hsf : startFunc = (if eqs proto (str "unix") then UnixServer ep
                               else TCPServer ep 10 10 1048576)).
    { destruct (eqs proto (str "unix")); injection Hps as _ ->; reflexivity. }
    assert (Hrest : exists post,
               trace (snd (match publish' m specPath
                                   (emit (EvGo startFunc) w1) with
                           | (inl e, w2) => (Some e, w2)
                           | (inr _, w2) => (None, w2)
                           end))
               = trace w1 ++ EvGo startFunc :: post
               /\ forall s', ~ In (EvGo s') post).
    { destruct (publish_cases core tbl os m specPath
                  (emit (EvGo startFunc) w1))
        as [[_ ->]|[_ (res & fs' & -> & _)]].
      - exists []. split; [reflexivity | intros s' []].
      - exists [EvWriteFile (specFile' m) specPath perm0644]. split.
        + destruct res; cbn; rewrite <- app_assoc; reflexivity.
        + intros s' [Hx|[]]. discriminate. }
    destruct Hrest as (post & Hpost & Hnopost).
    rewrite Hpost. intros Hin.
    assert (Hs : s = startFunc).
    { apply in_app_or in Hin. destruct Hin as [Hin|[Heq|Hin]].
      - destruct (Hprep _ Hin).
      - congruence.
      - destruct (Hnopost _ Hin). }
    subst s. exists proto, ep, (trace w1), post.
    repeat split; try assumption.
    rewrite Htr, Ht. cbn [app].
    destruct (eqs proto (str "unix")); cbn; auto.
Qed.

(** X15: when [Start] returns without an error, a server has been launched
    and something sits at the discovery path. *)
Theorem Start_success (m : Mod RexRay) (w : World) :
  fst (Start' m w) = None ->
  (exists s, In (EvGo s) (trace (snd (Start' m w))))
  /\ is_Some (fs (snd (Start' m w)) !! specFile' m).
Proof.
  rewrite Start_steps.
  destruct (prepare' m w) as [[e|[specPath startFunc]] w1] eqn:EP;
    cbn [fst snd]; [discriminate|].
  destruct (publish_cases core tbl os m specPath (emit (EvGo startFunc) w1))
    as [[Hex ->]|[_ (res & fs' & -> & Hfs)]].
  - intros _. cbn [snd]. split; [|exact Hex].
    exists startFunc. cbn. apply in_or_app. right. left. reflexivity.
  - destruct res as [e|u]; cbn [fst snd]; [discriminate|]. intros _.
    split.
    + exists startFunc. cbn. apply in_or_app. left.
      apply in_or_app. right. left. reflexivity.
    + cbn [fs]. rewrite (Hfs u eq_refl), lookup_insert_eq. eauto.
Qed.

(** X16: the discovery file is written after the launch, so a failed write
    makes [Start] return that error with the server already launched; the
    discovery path is then still empty, or holds what of the address went
    in before the failure. *)
Theorem Start_write_failure_after_launch (m : Mod RexRay) (w w1 : World)
        (specPath : gostring) (startFunc : Server) (e : error) :
  prepare' m w = (inr (specPath, startFunc), w1) ->
  fs w1 !! specFile' m = None ->
  write_fails os (fs w1) (specFile' m) = Some e ->
  fst (Start' m w) = Some e
  /\ trace (snd (Start' m w))
     = trace w1
       ++ [EvGo startFunc; EvWriteFile (specFile' m) specPath perm0644]
  /\ (fs (snd (Start' m w)) = fs w1
      \/ exists n,
           fs (snd (Start' m w))
           = <[specFile' m := File (List.firstn n specPath) perm0644]>
               (fs w1)).
Proof.
  intros EP Hnone Hw. rewrite Start_steps, EP.
  unfold publish, bind, gotil_FileExists, ioutil_WriteFile, check.
  cbn [emit fs trace].
  rewrite bool_decide_eq_false_2
    by (rewrite Hnone; intros [x Hx]; discriminate).
  cbn. rewrite Hw.
  destruct (write_partial os (fs w1) (specFile' m)) as [n|];
    rewrite ?Hnone; cbn; unfold emit; cbn [fs trace];
    rewrite <- ?app_assoc;
    (split; [reflexivity|]); (split; [reflexivity|]); eauto.
Qed.

(** [os.MkdirAll] leaves everything that exists as it is. *)
Lemma os_MkdirAll_keeps_node dir perm p n :
  keeps (fun w => fs w !! p = Some n) (os_MkdirAll os dir perm).
Proof.
  intros w Hw. unfold os_MkdirAll.
  destruct (fs w !! dir) as [[d q|q]|] eqn:E; cbn; try exact Hw.
  destruct (mkdir_fails os (fs w) dir); cbn; [exact Hw|].
  rewrite lookup_insert_ne; [exact Hw|]. intros ->. congruence.
Qed.

(** So does publication: it writes only where nothing is. *)
Lemma publish_keeps_node (m : Mod RexRay) specPath p n :
  keeps (fun w => fs w !! p = Some n) (publish' m specPath).
Proof.
  intros w Hw.
  destruct (publish_cases core tbl os m specPath w)
    as [[_ ->]|[Hnone _]]; [exact Hw|].
  unfold publish, bind, gotil_FileExists, ioutil_WriteFile, check.
  rewrite bool_decide_eq_false_2
    by (rewrite Hnone; intros [x Hx]; discriminate).
  cbn. rewrite Hnone.
  destruct (write_fails os (fs w) (specFile' m));
    [destruct (write_partial os (fs w) (specFile' m))|]; cbn;
    try exact Hw;
    (rewrite lookup_insert_ne; [exact Hw|]; intros E; congruence).
Qed.

(** X17: with any protocol but "unix" (a tcp address), [Start] removes
    nothing and changes nothing that exists: whatever is at a path before
    is there afterwards. *)
Theorem Start_tcp_keeps_everything (m : Mod RexRay) (w : World)
        (proto ep p : gostring) (n : Node) :
  ParseAddress (mod_Address m) = inr (proto, ep) ->
  proto <> str "unix" ->
  fs w !! p = Some n ->
  fs (snd (Start' m w)) !! p = Some n.
Proof.
  intros HP Hne Hp.
  assert (Hprep : keeps (fun w' => fs w' !! p = Some n) (prepare' m)).
  { apply prepare_keeps_gen.
    - apply os_MkdirAll_keeps_node.
    - intros sock HP'. rewrite HP in HP'. congruence.
    - intros w' Hw'. exact Hw'. }
  specialize (Hprep w Hp). rewrite Start_steps.
  destruct (prepare' m w) as [[e|[specPath startFunc]] w1];
    cbn [fst snd] in Hprep |- *; [exact Hprep|].
  pose proof (publish_keeps_node m specPath p n (emit (EvGo startFunc) w1)
                Hprep) as Hpub.
  destruct (publish' m specPath (emit (EvGo startFunc) w1)) as [[e|u] w2];
    exact Hpub.
Qed.

(** X18: with any protocol but "unix", the only calls [Start] makes are
    the initialisation of the drivers, the making of /etc/docker/plugins,
    the launch of the TCP server on the parsed endpoint (10 s read and
    write timeouts, 1 MiB of headers) and the write of that endpoint to
    the discovery path; in particular nothing is ever removed. *)
Theorem Start_tcp_calls (m : Mod RexRay) (w : World) (proto ep : gostring) :
  ParseAddress (mod_Address m) = inr (proto, ep) ->
  proto <> str "unix" ->
  trace w = [] ->
  Forall (fun ev =>
            ev = EvInitDrivers
            \/ ev = EvMkdirAll (str "/etc/docker/plugins") perm0755
            \/ ev = EvGo (TCPServer ep 10 10 1048576)
            \/ ev = EvWriteFile (specFile' m) ep perm0644)
         (trace (snd (Start' m w))).
Proof.
  intros HP Hne Ht.
  set (ok := fun ev =>
               ev = EvInitDrivers
               \/ ev = EvMkdirAll (str "/etc/docker/plugins") perm0755
               \/ ev = EvGo (TCPServer ep 10 10 1048576)
               \/ ev = EvWriteFile (specFile' m) ep perm0644).
  assert (Hprep : keeps (fun w' => Forall ok (trace w')) (prepare' m)).
  { apply prepare_keeps_gen.
    - intros w' Hw'.
      destruct (os_MkdirAll_run (str "/etc/docker/plugins") perm0755 w')
        as (res & f' & ->).
      cbn. apply Forall_app. split; [exact Hw'|].
      constructor; [|constructor]. right. left. reflexivity.
    - intros sock HP'. rewrite HP in HP'. congruence.
    - intros w' Hw'. cbn. apply Forall_app. split; [exact Hw'|].
      constructor; [|constructor]. left. reflexivity. }
  assert (H0 : Forall ok (trace w)) by (rewrite Ht; constructor).
  specialize (Hprep w H0). rewrite Start_steps.
  destruct (prepare' m w) as [[e|[specPath startFunc]] w1] eqn:EP;
    cbn [fst snd] in Hprep |- *; [exact Hprep|].
  destruct (prepare_result core os ParseAddress m w _ _ EP)
    as (proto' & ep' & HP' & _ & _ & Hps).
  rewrite HP in HP'. injection HP' as <- <-.
  apply eqs_false in Hne. rewrite Hne in Hps. injection Hps as -> ->.
  assert (H1 : Forall ok (trace (emit (EvGo (TCPServer ep 10 10 (2 ^ 20))) w1))).
  { cbn. apply Forall_app. split; [exact Hprep|].
    constructor; [|constructor]. right. right. left. reflexivity. }
  destruct (publish_cases core tbl os m ep
              (emit (EvGo (TCPServer ep 10 10 (2 ^ 20))) w1))
    as [[_ ->]|[_ (res & fs' & -> & _)]]; [exact H1|].
  assert (H2 : Forall ok
                 (trace (emit (EvGo (TCPServer ep 10 10 (2 ^ 20))) w1)
                  ++ [EvWriteFile (specFile' m) ep perm0644])).
  { apply Forall_app. split; [exact H1|].
    constructor; [|constructor]. right. right. right. reflexivity. }
  destruct res; exact H2.
Qed.

(** [os.MkdirAll] touches no path but its own. *)
Lemma os_MkdirAll_other dir perm w :
  exists res f',
    os_MkdirAll os dir perm w
    = (inr res, {| fs := f'; trace := trace w ++ [EvMkdirAll dir perm] |})
    /\ forall k, k <> dir -> f' !! k = fs w !! k.
Proof.
  unfold os_MkdirAll.
  destruct (fs w !! dir) as [[d q|q]|]; cbn; eauto.
  destruct (mkdir_fails os (fs w) dir); cbn; eauto.
  eexists _, _. split; [reflexivity|]. intros k Hk. cbn.
  apply lookup_insert_ne. congruence.
Qed.

(** X19: when /etc/docker/plugins is not there and cannot be made, [Start]
    returns the error of [os.MkdirAll] as it is; no server has been
    launched and no file written. *)
Theorem Start_discovery_dir_failure (m : Mod RexRay) (w : World)
        (proto ep : gostring) (e : error) :
  ParseAddress (mod_Address m) = inr (proto, ep) ->
  MatchString validProtoPatt proto = true ->
  InitDrivers_result core (r m) = None ->
  fs w !! str "/etc/docker/plugins" = None ->
  (forall f, mkdir_fails os f (str "/etc/docker/plugins") = Some e) ->
  (proto = str "unix" -> filepath_Dir os ep <> str "/etc/docker/plugins") ->
  fst (Start' m w) = Some e
  /\ noNewGo (trace w) (snd (Start' m w))
  /\ noNewWrites (trace w) (snd (Start' m w)).
Proof.
  intros HP HM HI Hnone Hmk Hdir.
  assert (EP : exists w1, prepare' m w = (inl e, w1)).
  { unfold prepare, bind, InitDrivers. rewrite HP, HM, HI. cbn [negb].
    destruct (eqs proto (str "unix")) eqn:EU.
    - apply eqs_true in EU.
      destruct (os_MkdirAll_other (filepath_Dir os ep) perm0755 w)
        as (res & f' & -> & Hf').
      remember (str "/etc/docker/plugins") as etc eqn:Eetc in *.
      unfold os_MkdirAll. cbn [emit fs trace].
      rewrite (Hf' etc), Hnone, Hmk
        by (intros E; apply (Hdir EU); symmetry; exact E).
      unfold check, fail. eauto.
    - remember (str "/etc/docker/plugins") as etc eqn:Eetc in *.
      unfold ret, os_MkdirAll. cbn [emit fs trace].
      rewrite Hnone, Hmk. unfold check, fail. eauto. }
  destruct EP as [w1 EP].
  pose proof (prepare_noNewGo m (trace w) w (fun s H => H)) as HG.
  pose proof (prepare_noNewWrites core os ParseAddress m (trace w) w
                (fun ev H _ => H)) as HW.
  rewrite Start_steps. rewrite EP in *. cbn [fst snd] in *.
  repeat split; assumption.
Qed.

End StartMore.

Lemma Start_parse_error_witness :
  Start Fake.core sampleCaseTable Fake.os Fake.ParseAddress
    (Fake.module "default-docker" "nonsense") Fake.world0
  = (Some (GoofError (str "invalid address")
             [(str "address", Some (str "nonsense"))]), Fake.world0).
Proof.
  apply (Start_parse_error Fake.core sampleCaseTable Fake.os
           Fake.ParseAddress (Fake.module "default-docker" "nonsense")
           Fake.world0).
  reflexivity.
Defined.

Lemma Start_rejects_unmatched_protocol_witness :
  Start Fake.core sampleCaseTable Fake.os Fake.ParseAddress
    (Fake.module "default-docker" "udp://host:53") Fake.world0
  = (Some (GoofError (str "invalid protocol")
             [(str "protocol", Some (str "udp"))]), Fake.world0).
Proof.
  apply (Start_rejects_unmatched_protocol Fake.core sampleCaseTable Fake.os
           Fake.ParseAddress (Fake.module "default-docker" "udp://host:53")
           Fake.world0 (str "udp") (str "host:53")); reflexivity.
Defined.

Lemma Start_drivers_failure_witness :
  fst (Start FakeFailures.coreNoDrivers sampleCaseTable Fake.os
         Fake.ParseAddress (Fake.module "default-docker" "") Fake.world0)
  = Some (GoofErrorE (str "error initializing drivers")
            [(str "m", None); (str "m.r", None)]
            (ExternalError (str "no drivers")))
  /\ trace (snd (Start FakeFailures.coreNoDrivers sampleCaseTable Fake.os
                   Fake.ParseAddress (Fake.module "default-docker" "")
                   Fake.world0))
     = trace Fake.world0
       ++ (if eqs (str "unix") (str "unix")
           then [EvMkdirAll
                   (filepath_Dir Fake.os (str "/run/docker/plugins/rexray.sock"))
                   perm0755]
           else [])
       ++ [EvInitDrivers].
Proof.
  apply (Start_drivers_failure FakeFailures.coreNoDrivers sampleCaseTable
           Fake.os Fake.ParseAddress (Fake.module "default-docker" "")
           Fake.world0 (str "unix") (str "/run/docker/plugins/rexray.sock")
           (ExternalError (str "no drivers"))); reflexivity.
Defined.

Lemma Start_launch_after_init_witness :
  exists proto ep pre post,
    Fake.ParseAddress (mod_Address (Fake.module "default-docker" ""))
    = inr (proto, ep)
    /\ MatchString validProtoPatt proto = true
    /\ InitDrivers_result Fake.core (r (Fake.module "default-docker" ""))
       = None
    /\ UnixServer (str "/run/docker/plugins/rexray.sock")
       = (if eqs proto (str "unix") then UnixServer ep
          else TCPServer ep 10 10 1048576)
    /\ trace (snd (Fake.start "default-docker" "" Fake.world0))
       = pre ++ EvGo (UnixServer (str "/run/docker/plugins/rexray.sock"))
               :: post
    /\ In EvInitDrivers pre
    /\ (forall s', ~ In (EvGo s') pre)
    /\ (forall s', ~ In (EvGo s') post).
Proof.
  apply (Start_launch_after_init Fake.core sampleCaseTable Fake.os
           Fake.ParseAddress (Fake.module "default-docker" "") Fake.world0
           (UnixServer (str "/run/docker/plugins/rexray.sock"))).
  - reflexivity.
  - vm_compute. do 5 right. left. reflexivity.
Defined.

Lemma Start_success_witness :
  (exists s, In (EvGo s) (trace (snd (Fake.start "default-docker" ""
                                        Fake.world0))))
  /\ is_Some (fs (snd (Fake.start "default-docker" "" Fake.world0))
                !! specFile Fake.core sampleCaseTable
                     (Fake.module "default-docker" "")).
Proof.
  apply (Start_success Fake.core sampleCaseTable Fake.os Fake.ParseAddress
           (Fake.module "default-docker" "") Fake.world0).
  vm_compute. reflexivity.
Defined.

Lemma Start_write_failure_after_launch_witness :
  fst (Start Fake.core sampleCaseTable FakeFailures.osReadOnly
         Fake.ParseAddress (Fake.module "default-docker" "tcp://127.0.0.1:8080")
         Fake.world0)
  = Some (ExternalError (str "read-only file system"))
  /\ In (EvGo (TCPServer (str "127.0.0.1:8080") 10 10 1048576))
        (trace (snd (Start Fake.core sampleCaseTable FakeFailures.osReadOnly
                       Fake.ParseAddress
                       (Fake.module "default-docker" "tcp://127.0.0.1:8080")
                       Fake.world0))).
Proof.
  destruct (Start_write_failure_after_launch Fake.core sampleCaseTable
              FakeFailures.osReadOnly Fake.ParseAddress
              (Fake.module "default-docker" "tcp://127.0.0.1:8080")
              Fake.world0
              (snd (prepare Fake.core FakeFailures.osReadOnly
                      Fake.ParseAddress
                      (Fake.module "default-docker" "tcp://127.0.0.1:8080")
                      Fake.world0))
              (str "127.0.0.1:8080")
              (TCPServer (str "127.0.0.1:8080") 10 10 1048576)
              (ExternalError (str "read-only file system")))
    as (H1 & H2 & _).
  - vm_compute. reflexivity.
  - vm_compute. reflexivity.
  - reflexivity.
  - split; [exact H1|]. rewrite H2.
    apply in_or_app. right. left. reflexivity.
Defined.

Lemma Start_tcp_keeps_everything_witness :
  fs (snd (Fake.start "default-docker" "tcp://127.0.0.1:8080"
             Fake.worldWithStaleSocket))
    !! str "/run/docker/plugins/rexray.sock"
  = Some (File [] 493).
Proof.
  apply (Start_tcp_keeps_everything Fake.core sampleCaseTable Fake.os
           Fake.ParseAddress
           (Fake.module "default-docker" "tcp://127.0.0.1:8080")
           Fake.worldWithStaleSocket (str "tcp") (str "127.0.0.1:8080")).
  - reflexivity.
  - vm_compute. discriminate.
  - reflexivity.
Defined.

Lemma Start_tcp_calls_witness :
  Forall (fun ev =>
            ev = EvInitDrivers
            \/ ev = EvMkdirAll (str "/etc/docker/plugins") perm0755
            \/ ev = EvGo (TCPServer (str "127.0.0.1:8080") 10 10 1048576)
            \/ ev = EvWriteFile
                      (specFile Fake.core sampleCaseTable
                         (Fake.module "default-docker" "tcp://127.0.0.1:8080"))
                      (str "127.0.0.1:8080") perm0644)
         (trace (snd (Fake.start "default-docker" "tcp://127.0.0.1:8080"
                        Fake.world0))).
Proof.
  apply (Start_tcp_calls Fake.core sampleCaseTable Fake.os Fake.ParseAddress
           (Fake.module "default-docker" "tcp://127.0.0.1:8080") Fake.world0
           (str "tcp") (str "127.0.0.1:8080")).
  - reflexivity.
  - vm_compute. discriminate.
  - reflexivity.
Defined.

Lemma Start_discovery_dir_failure_witness :
  fst (Start Fake.core sampleCaseTable FakeFailures.osNoMkdir
         Fake.ParseAddress (Fake.module "default-docker" "") Fake.world0)
  = Some (ExternalError (str "permission denied"))
  /\ noNewGo (trace Fake.world0)
       (snd (Start Fake.core sampleCaseTable FakeFailures.osNoMkdir
               Fake.ParseAddress (Fake.module "default-docker" "")
               Fake.world0))
  /\ noNewWrites (trace Fake.world0)
       (snd (Start Fake.core sampleCaseTable FakeFailures.osNoMkdir
               Fake.ParseAddress (Fake.module "default-docker" "")
               Fake.world0)).
Proof.
  apply (Start_discovery_dir_failure Fake.core sampleCaseTable
           FakeFailures.osNoMkdir Fake.ParseAddress
           (Fake.module "default-docker" "") Fake.world0 (str "unix")
           (str "/run/docker/plugins/rexray.sock")).
  - reflexivity.
  - reflexivity.
  - reflexivity.
  - reflexivity.
  - intros f. reflexivity.
  - intros _. vm_compute. discriminate.
Defined.

(** ** More on the verb dispatcher *)

Section DispatcherMore.
Context {VolumeOpts VolumeMap : Type}.
Variable codec : Codec VolumeOpts VolumeMap.
Variable vm : VolumeManager VolumeOpts VolumeMap.

Ltac open_handler v Hd :=
  destruct v; cbn [handle verbCall callError];
  unfold Plugin_Activate, VolumeDriver_Create, VolumeDriver_Remove,
    VolumeDriver_Path, VolumeDriver_Mount, VolumeDriver_Unmount,
    VolumeDriver_Get, VolumeDriver_List;
  rewrite ?Hd;
  unfold call_Create, call_Remove, call_Path, call_Mount, call_Unmount,
    call_Get, call_List;
  cbv beta iota zeta.

(** X20: a verb makes its one call on the Volume Manager, with the name of
    the request (and, for create, its options; no name for list), exactly
    once, whether the call succeeds or fails: nothing is retried, and
    activate calls nothing. *)
Theorem handler_calls (v : Verb) (reqBody : gostring)
        (pr : pluginRequest VolumeOpts) :
  json_Decode codec reqBody = inr pr ->
  exists s,
    serve codec vm (verbPath v) reqBody = Some s
    /\ calls s = verbCall v pr.
Proof.
  intros Hd. exists (handle codec vm v reqBody).
  split; [apply serve_verbPath|].
  open_handler v Hd; try reflexivity;
    repeat case_match; reflexivity.
Qed.

(** X21: when the call of a verb fails, the answer is status 500 with the
    body {"Error":"<message of the call>"} and the content type
    text/plain; charset=utf-8. *)
Theorem call_failure_response (v : Verb) (reqBody : gostring)
        (pr : pluginRequest VolumeOpts) (e : error) :
  json_Decode codec reqBody = inr pr ->
  callError vm v pr = Some e ->
  exists s,
    serve codec vm (verbPath v) reqBody = Some s
    /\ status (response s) = Some 500
    /\ body (response s) = Sprintf_Error (Error e) ++ [10]
    /\ header (response s) !! str "Content-Type"
       = Some (str "text/plain; charset=utf-8").
Proof.
  intros Hd He. exists (handle codec vm v reqBody).
  split; [apply serve_verbPath|].
  assert (E : response (handle codec vm v reqBody) = reply500 e newResponse).
  { revert He. open_handler v Hd; intros He; try discriminate;
      repeat case_match; simplify_eq; reflexivity. }
  rewrite E. split; [reflexivity|]. split; [reflexivity|].
  apply reply500_content_type.
Qed.

(** X22: create, remove and unmount answer a successful call with status
    200, the plugin content type and the body {}. *)
Theorem empty_success_response (v : Verb) (reqBody : gostring)
        (pr : pluginRequest VolumeOpts) :
  json_Decode codec reqBody = inr pr ->
  v = VCreate \/ v = VRemove \/ v = VUnmount ->
  callError vm v pr = None ->
  exists s,
    serve codec vm (verbPath v) reqBody = Some s
    /\ status (response s) = Some 200
    /\ body (response s) = str "{}" ++ [10]
    /\ header (response s) !! str "Content-Type" = Some pluginContentType.
Proof.
  intros Hd Hv He. exists (handle codec vm v reqBody).
  split; [apply serve_verbPath|].
  assert (E : response (handle codec vm v reqBody)
              = Write (str "{}" ++ [10])
                  (Header_Set (str "Content-Type") pluginContentType
                     newResponse)).
  { revert He. destruct Hv as [->|[->| ->]]; cbn [handle callError];
      unfold VolumeDriver_Create, VolumeDriver_Remove, VolumeDriver_Unmount,
        call_Create, call_Remove, call_Unmount;
      rewrite Hd; cbv beta iota zeta; intros ->; reflexivity. }
  rewrite E. split; [reflexivity|]. split; [reflexivity|].
  apply plugin_content_type.
Qed.

(** X23: path and mount answer a successful call with status 200, the
    plugin content type and the body {"Mountpoint": "<path returned>"};
    mount asks for the volume by name, without an id, without overwriting
    the file system, without a file-system type and without preemption. *)
Theorem mountpoint_response (v : Verb) (reqBody : gostring)
        (pr : pluginRequest VolumeOpts) (mountPath : gostring) :
  json_Decode codec reqBody = inr pr ->
  (v = VPath /\ Volume_Path vm (pr_Name pr) [] = inr mountPath)
  \/ (v = VMount
      /\ Volume_Mount vm (pr_Name pr) [] false [] false = inr mountPath) ->
  exists s,
    serve codec vm (verbPath v) reqBody = Some s
    /\ status (response s) = Some 200
    /\ body (response s) = Sprintf_Mountpoint mountPath ++ [10]
    /\ header (response s) !! str "Content-Type" = Some pluginContentType.
Proof.
  intros Hd Hv. exists (handle codec vm v reqBody).
  split; [apply serve_verbPath|].
  assert (E : response (handle codec vm v reqBody)
              = Write (Sprintf_Mountpoint mountPath ++ [10])
                  (Header_Set (str "Content-Type") pluginContentType
                     newResponse)).
  { destruct Hv as [[-> Hc]|[-> Hc]]; cbn [handle];
      unfold VolumeDriver_Path, VolumeDriver_Mount, call_Path, call_Mount;
      rewrite Hd, Hc; reflexivity. }
  rewrite E. split; [reflexivity|]. split; [reflexivity|].
  apply plugin_content_type.
Qed.

(** X24: get and list answer a successful call with status 200, the
    plugin content type and, as the whole body, what the JSON encoder
    writes for the volume or for the list of volumes. *)
Theorem volume_responses (reqBody : gostring)
        (pr : pluginRequest VolumeOpts) :
  json_Decode codec reqBody = inr pr ->
  (forall vol,
      Volume_Get vm (pr_Name pr) = inr vol ->
      exists s,
        serve codec vm (verbPath VGet) reqBody = Some s
        /\ status (response s) = Some 200
        /\ body (response s) = json_Encode_Volume codec vol
        /\ header (response s) !! str "Content-Type" = Some pluginContentType)
  /\ (forall vols,
         Volume_List vm = inr vols ->
         exists s,
           serve codec vm (verbPath VList) reqBody = Some s
           /\ status (response s) = Some 200
           /\ body (response s) = json_Encode_Volumes codec vols
           /\ header (response s) !! str "Content-Type"
              = Some pluginContentType).
Proof.
  intros Hd. split.
  - intros vol Hc. exists (handle codec vm VGet reqBody).
    split; [apply serve_verbPath|]. cbn [handle].
    unfold VolumeDriver_Get, call_Get. rewrite Hd, Hc.
    cbn [response respond].
    split; [reflexivity|]. split; [reflexivity|]. apply plugin_content_type.
  - intros vols Hc. exists (handle codec vm VList reqBody).
    split; [apply serve_verbPath|]. cbn [handle].
    unfold VolumeDriver_List, call_List. rewrite Hd, Hc.
    cbn [response respond].
    split; [reflexivity|]. split; [reflexivity|]. apply plugin_content_type.
Qed.

(** X25: activate answers every request, whatever its body and whether or
    not it would decode, with status 200, the plugin content type and
    {"Implements": ["VolumeDriver"]}, and calls nothing. *)
Theorem activate_response (reqBody : gostring) :
  exists s,
    serve codec vm (verbPath VActivate) reqBody = Some s
    /\ status (response s) = Some 200
    /\ body (response s) = activateBody ++ [10]
    /\ header (response s) !! str "Content-Type" = Some pluginContentType
    /\ calls s = [].
Proof.
  exists (handle codec vm VActivate reqBody).
  split; [apply serve_verbPath|].
  split; [reflexivity|]. split; [reflexivity|].
  split; [apply plugin_content_type | reflexivity].
Qed.

(** X26: the mux serves the eight verb paths and no other path (matching
    is exact, case included); two verbs never share a path. *)
Theorem serve_routes (p reqBody : gostring) :
  (is_Some (serve codec vm p reqBody) <-> exists v, p = verbPath v)
  /\ (forall v v', verbPath v = verbPath v' -> v = v').
Proof.
  split.
  - split.
    + intros [s Hs]. unfold serve, buildMux, route in Hs.
      repeat match type of Hs with
        | context [eqs ?a p] =>
            destruct (eqs a p) eqn:?E;
            [apply eqs_true in E | clear E]
        end;
        try discriminate;
        match goal with
        | E : _ = p |- _ => subst p
        end;
        [exists VActivate | exists VCreate | exists VRemove | exists VPath
        | exists VMount | exists VUnmount | exists VGet | exists VList];
        reflexivity.
    + intros [v ->]. rewrite serve_verbPath. eauto.
  - intros v v' H. destruct v, v'; try reflexivity; vm_compute in H;
      discriminate.
Qed.

End DispatcherMore.

Lemma handler_calls_witness :
  exists s,
    serve FakeVM.codec (FakeVM.vmFailing (str "boom")) (verbPath VMount)
      (FakeVM.nameBody "vol1") = Some s
    /\ calls s = [CallMount (str "vol1") [] false [] false].
Proof.
  apply (handler_calls FakeVM.codec (FakeVM.vmFailing (str "boom")) VMount
           (FakeVM.nameBody "vol1") (mkPR (str "vol1") [])).
  reflexivity.
Defined.

Lemma call_failure_response_witness :
  exists s,
    serve FakeVM.codec (FakeVM.vmFailing (str "boom")) (verbPath VList)
      (str "{}") = Some s
    /\ status (response s) = Some 500
    /\ body (response s) = Sprintf_Error (str "boom") ++ [10]
    /\ header (response s) !! str "Content-Type"
       = Some (str "text/plain; charset=utf-8").
Proof.
  apply (call_failure_response FakeVM.codec (FakeVM.vmFailing (str "boom"))
           VList (str "{}") (mkPR [] []) (ExternalError (str "boom")));
    reflexivity.
Defined.

Lemma empty_success_response_witness :
  exists s,
    serve FakeVM.codec FakeVM.vmOK (verbPath VCreate) (FakeVM.nameBody "vol1")
    = Some s
    /\ status (response s) = Some 200
    /\ body (response s) = str "{}" ++ [10]
    /\ header (response s) !! str "Content-Type" = Some pluginContentType.
Proof.
  apply (empty_success_response FakeVM.codec FakeVM.vmOK VCreate
           (FakeVM.nameBody "vol1") (mkPR (str "vol1") [])).
  - reflexivity.
  - left. reflexivity.
  - reflexivity.
Defined.

Lemma mountpoint_response_witness :
  exists s,
    serve FakeVM.codec FakeVM.vmOK (verbPath VPath) (FakeVM.nameBody "vol1")
    = Some s
    /\ status (response s) = Some 200
    /\ body (response s) = Sprintf_Mountpoint (str "/data/vol1") ++ [10]
    /\ header (response s) !! str "Content-Type" = Some pluginContentType.
Proof.
  apply (mountpoint_response FakeVM.codec FakeVM.vmOK VPath
           (FakeVM.nameBody "vol1") (mkPR (str "vol1") [])
           (str "/data/vol1")).
  - reflexivity.
  - left. split; reflexivity.
Defined.

Lemma volume_responses_witness :
  (exists s,
      serve FakeVM.codec FakeVM.vmOK (verbPath VGet) (FakeVM.nameBody "vol1")
      = Some s
      /\ status (response s) = Some 200
      /\ body (response s) = json_Encode_Volume FakeVM.codec []
      /\ header (response s) !! str "Content-Type" = Some pluginContentType)
  /\ (exists s,
         serve FakeVM.codec FakeVM.vmOK (verbPath VList)
           (FakeVM.nameBody "vol1") = Some s
         /\ status (response s) = Some 200
         /\ body (response s) = json_Encode_Volumes FakeVM.codec []
         /\ header (response s) !! str "Content-Type"
            = Some pluginContentType).
Proof.
  destruct (volume_responses FakeVM.codec FakeVM.vmOK (FakeVM.nameBody "vol1")
              (mkPR (str "vol1") []) eq_refl) as [Hg Hl].
  split; [apply (Hg [] eq_refl) | apply (Hl [] eq_refl)].
Defined.

(** ** govc fields.rm *)

Section FieldsRmFacts.
Import FieldsRm.
Context {Client Manager Fields : Type}.
Variable cmd_Client : error + Client.
Variable GetCustomFieldsManager : Client -> error + Manager.
Variable FindKey : Manager -> Fields -> gostring -> error + Z.
Variable Remove : Manager -> Fields -> Z -> option error * Fields.

Local Abbreviation removeKeys' := (removeKeys FindKey Remove).
Local Abbreviation Run' :=
  (Run cmd_Client GetCustomFieldsManager FindKey Remove).

(** The calls already logged stay in front of the new ones. *)
Lemma removeKeys_log m args st log :
  removeKeys' m args st log
  = (fst (fst (removeKeys' m args st [])),
     snd (fst (removeKeys' m args st [])),
     log ++ snd (removeKeys' m args st [])).
Proof.
  revert st log. induction args as [|name rest IH]; intros st log.
  - cbn. rewrite app_nil_r. reflexivity.
  - cbn [removeKeys]. destruct (FindKey m st name) as [err|key];
      [reflexivity|].
    destruct (Remove m st key) as [[err|] st']; [reflexivity|].
    rewrite IH. rewrite (IH st' ([] ++ _)). cbn [fst snd app].
    rewrite <- app_assoc. reflexivity.
Qed.

(** The loop over two lists in a row is the loop over the first, then,
    unless that failed, the loop over the second from where it ended. *)
Lemma removeKeys_app m a b st log :
  removeKeys' m (a ++ b) st log
  = match removeKeys' m a st log with
    | (None, st', log') => removeKeys' m b st' log'
    | (Some e, st', log') => (Some e, st', log')
    end.
Proof.
  revert st log. induction a as [|name rest IH]; intros st log.
  - reflexivity.
  - cbn [app removeKeys]. destruct (FindKey m st name) as [err|key];
      [reflexivity|].
    destruct (Remove m st key) as [[err|] st']; [reflexivity|].
    apply IH.
Qed.

(** X27: [Run] on two lists of names in a row is [Run] on the first and
    then, if that went through, [Run] on the second from the fields the
    first left; the calls are those of the first followed by those of the
    second. *)
Theorem Run_app (a b : list gostring) (st : Fields) :
  Run cmd_Client GetCustomFieldsManager FindKey Remove (a ++ b) st
  = match Run' a st with
    | (None, st', calls_a) =>
        (fst (fst (Run' b st')), snd (fst (Run' b st')),
         calls_a ++ snd (Run' b st'))
    | (Some e, st', calls_a) => (Some e, st', calls_a)
    end.
Proof.
  unfold Run. destruct cmd_Client as [err|c]; [reflexivity|].
  destruct (GetCustomFieldsManager c) as [err|m]; [reflexivity|].
  rewrite removeKeys_app.
  destruct (removeKeys' m a st []) as [[[e|] st'] l]; [reflexivity|].
  apply removeKeys_log.
Qed.

(** X28: [Run] stops at the first name that cannot be found or removed:
    once it fails on a list of names, it fails in the same way, with the
    same fields left and the same calls made, whatever names follow. *)
Theorem Run_stops_at_first_error (a b : list gostring) (st st' : Fields)
        (e : error) (l : list Call) :
  Run' a st = (Some e, st', l) ->
  Run' (a ++ b) st = (Some e, st', l).
Proof.
  unfold Run. destruct cmd_Client as [err|c]; [auto|].
  destruct (GetCustomFieldsManager c) as [err|m]; [auto|].
  intros H. rewrite removeKeys_app, H. reflexivity.
Qed.

Lemma removeKeys_success m args st log st' l :
  removeKeys' m args st log = (None, st', l) ->
  exists keys, length keys = length args /\ l = log ++ callsFor args keys.
Proof.
  revert st log. induction args as [|name rest IH]; intros st log H.
  - cbn in H. injection H as <- <-. exists []. cbn.
    rewrite app_nil_r. split; reflexivity.
  - cbn [removeKeys] in H. destruct (FindKey m st name) as [err|key];
      [discriminate|].
    destruct (Remove m st key) as [[err|] st1]; [discriminate|].
    destruct (IH _ _ H) as (keys & Hlen & ->).
    exists (key :: keys). cbn [length callsFor]. split; [lia|].
    rewrite <- app_assoc. reflexivity.
Qed.

(** X29: when [Run] returns without an error, it has looked up and removed
    every name, in the order given, each exactly once: the calls are
    FindKey, Remove, FindKey, Remove, ... with one key per name. *)
Theorem Run_success_calls (args : list gostring) (st st' : Fields)
        (l : list Call) :
  Run' args st = (None, st', l) ->
  exists keys, length keys = length args /\ l = callsFor args keys.
Proof.
  unfold Run. destruct cmd_Client as [err|c]; [discriminate|].
  destruct (GetCustomFieldsManager c) as [err|m]; [discriminate|].
  intros H. destruct (removeKeys_success m args st [] st' l H)
    as (keys & Hlen & Hl).
  exists keys. split; assumption.
Qed.

(** Without a client, or without the custom-fields manager, [Run]
    returns the error it got and makes no call: no field is touched. *)
Theorem Run_without_manager (args : list gostring) (st : Fields)
        (e : error) :
  cmd_Client = inl e
  \/ (exists c, cmd_Client = inr c /\ GetCustomFieldsManager c = inl e) ->
  Run' args st = (Some e, st, []).
Proof.
  unfold Run. intros [->|(c & -> & ->)]; reflexivity.
Qed.

End FieldsRmFacts.

Lemma Run_stops_at_first_error_witness :
  FieldsRm.fakeRun ([str "zzz"] ++ [str "a"]) [(str "a", 1%Z)]
  = (Some (ExternalError (str "key name not found")), [(str "a", 1%Z)],
     [FieldsRm.FindKeyCall (str "zzz")]).
Proof.
  apply (Run_stops_at_first_error (inr tt) (fun _ => inr tt)
           FieldsRm.fakeFindKey FieldsRm.fakeRemove [str "zzz"] [str "a"]).
  reflexivity.
Defined.

Lemma Run_success_calls_witness :
  exists keys,
    length keys = length [str "a"; str "b"]
    /\ [FieldsRm.FindKeyCall (str "a"); FieldsRm.RemoveCall 1;
        FieldsRm.FindKeyCall (str "b"); FieldsRm.RemoveCall 2]
       = FieldsRm.callsFor [str "a"; str "b"] keys.
Proof.
  apply (Run_success_calls (inr tt) (fun _ => inr tt)
           FieldsRm.fakeFindKey FieldsRm.fakeRemove [str "a"; str "b"]
           [(str "a", 1%Z); (str "b", 2%Z)] []).
  reflexivity.
Defined.

Lemma Run_without_manager_witness :
  FieldsRm.Run (Client := unit) (Manager := unit)
    (inl (ExternalError (str "not logged in"))) (fun _ => inr tt)
    FieldsRm.fakeFindKey FieldsRm.fakeRemove [str "a"] [(str "a", 1%Z)]
  = (Some (ExternalError (str "not logged in")), [(str "a", 1%Z)], []).
Proof.
  apply (Run_without_manager (inl (ExternalError (str "not logged in")))
           (fun _ => inr tt) FieldsRm.fakeFindKey FieldsRm.fakeRemove).
  left. reflexivity.
Defined.
